(** * Deployment orchestrator MCP server: the request dispatcher

    A shallow embedding of the JSON-RPC dispatcher of [api/mcp.ts]
    (the Streamable-HTTP handler), of the two provider clients
    [VercelAPI] and [RenderAPI] it drives, and of the tools that
    [server.ts] registers with the MCP SDK.

    The JavaScript the handlers run is kept as it is written: values
    are untyped, property reads on [undefined]/[null] raise, template
    literals convert with ToString, [||] and [!] go through truthiness,
    and [try]/[catch] is an explicit combinator.  The outside world
    (provider replies, the uuid generator, the process environment, the
    locale of [Date]) is an input of every run. *)

From Stdlib Require Import ZArith String List Bool Lia Ascii DecimalString.
Import ListNotations.
Local Open Scope string_scope.
Set Warnings "-register-all".

(** ** JavaScript values, as far as JSON and [undefined] go *)

Module Js.

Inductive value : Type :=
| Undefined
| Null
| Boolean (b : bool)
| Num (n : Z)
| Str (s : string)
| Arr (items : list value)
| Obj (fields : list (string * value)).

(** ToBoolean: what [!v], [v ? a : b] and [v || w] look at.  Numbers are
    the integers (of a magnitude that prints in plain decimals), so [0]
    is the only falsy one. *)
Definition truthy (v : value) : bool :=
  match v with
  | Undefined | Null => false
  | Boolean b => b
  | Num n => negb (n =? 0)%Z
  | Str s => negb (s =? "")
  | Arr _ | Obj _ => true
  end.

(** [a || b] *)
Definition or_else (a b : value) : value := if truthy a then a else b.

Definition nullish (v : value) : bool :=
  match v with
  | Undefined | Null => true
  | _ => false
  end.

Fixpoint lookup (k : string) (fs : list (string * value)) : option value :=
  match fs with
  | [] => None
  | (k', v) :: rest => if k' =? k then Some v else lookup k rest
  end.

Definition has_key (k : string) (v : value) : bool :=
  match v with
  | Obj fs => match lookup k fs with Some _ => true | None => false end
  | _ => false
  end.

(** [v.k] on a value that is neither [undefined] nor [null].  The keys
    the handlers read ([method], [params], [id], [name], [arguments],
    [projectName], [gitRepo], [branch], [serviceId], [serviceName],
    [url], [readyState], [target], [status], [createdAt], [finishedAt],
    [type], [error], [message], [serviceDetails], [buildCommand]) are on
    no built-in prototype, so only an object's own fields answer. *)
Definition get (v : value) (k : string) : value :=
  match v with
  | Obj fs => match lookup k fs with Some x => x | None => Undefined end
  | _ => Undefined
  end.

(** [v?.k] *)
Definition opt_get (v : value) (k : string) : value :=
  if nullish v then Undefined else get v k.

(** [a === b], for two values that do not share an object: an array or
    an object is equal to itself only, and the handlers never compare a
    reference with itself. *)
Definition strict_eq (a b : value) : bool :=
  match a, b with
  | Undefined, Undefined => true
  | Null, Null => true
  | Boolean x, Boolean y => Bool.eqb x y
  | Num x, Num y => (x =? y)%Z
  | Str x, Str y => (x =? y)
  | _, _ => false
  end.

(** [v === 'literal'] *)
Definition is_str (v : value) (lit : string) : bool := strict_eq v (Str lit).

(** *** Exceptions *)

Inductive type_error : Type :=
| CannotDestructure                 (* const { .. } = v, v undefined or null *)
| CannotReadProperty (key : string) (* v.key, v undefined or null *)
| NotAFunction (callee : string)    (* v.f(..), v.f not callable *)
| CannotConvertToPrimitive.         (* `${v}`, v an object without a usable toString *)

Inductive exn : Type :=
| Error (message : string)
| TypeError (why : type_error)
| AxiosError (message : string) (response_data : value).

(** What the host engine and its locale decide: the text of the
    messages of the [TypeError]s it raises itself, and the rendering of
    [new Date(v).toLocaleString()] ([None] when the conversion of [v]
    raises). *)
Record engine : Type := {
  type_error_message : type_error -> string;
  date_to_locale_string : value -> option string
}.

Definition result (A : Type) : Type := (exn + A)%type.

Definition ok {A} (a : A) : result A := inr a.
Definition raise {A} (e : exn) : result A := inl e.
Definition and_then {A B} (r : result A) (k : A -> result B) : result B :=
  match r with
  | inl e => inl e
  | inr a => k a
  end.

(** [error.message] *)
Definition exn_message (eng : engine) (e : exn) : string :=
  match e with
  | Error m => m
  | TypeError w => type_error_message eng w
  | AxiosError m _ => m
  end.

(** [error.response?.data]: only an axios error carries a response. *)
Definition exn_response_data (e : exn) : value :=
  match e with
  | AxiosError _ d => d
  | _ => Undefined
  end.

(** [v.k], raising on [undefined] and [null]. *)
Definition member (v : value) (k : string) : result value :=
  if nullish v then raise (TypeError (CannotReadProperty k)) else ok (get v k).

(** [const { .. } = v] may go on when [v] is neither [undefined] nor [null]. *)
Definition destructurable (v : value) : result unit :=
  if nullish v then raise (TypeError CannotDestructure) else ok tt.

(** The decimal digits of an integer: what [String(n)] is for an integer
    [n] of magnitude below [1e21]; from there on JavaScript prints an
    exponent, which this does not. *)
Definition string_of_Z (n : Z) : string := NilZero.string_of_int (Z.to_int n).

(** [items.join(",")] with [f] as the conversion of an item:
    [undefined] and [null] items give empty strings. *)
Definition join_with (f : value -> result string)
  : list value -> result string :=
  fix join (l : list value) : result string :=
    match l with
    | [] => ok ""
    | x :: rest =>
        and_then (if nullish x then ok "" else f x) (fun sx =>
        match rest with
        | [] => ok sx
        | _ => and_then (join rest) (fun sr => ok (sx ++ "," ++ sr))
        end)
    end.

(** ToString, as a template literal applies it.  A parsed JSON object
    has [Object.prototype.toString] unless an own field named [toString]
    shadows it, and then no conversion is left; an array joins its
    items with commas. *)
Fixpoint to_string (v : value) : result string :=
  match v with
  | Undefined => ok "undefined"
  | Null => ok "null"
  | Boolean true => ok "true"
  | Boolean false => ok "false"
  | Num n => ok (string_of_Z n)
  | Str s => ok s
  | Arr items => join_with to_string items
  | Obj fs =>
      match lookup "toString" fs with
      | Some _ => raise (TypeError CannotConvertToPrimitive)
      | None => ok "[object Object]"
      end
  end.

(** [`${v.k}`] *)
Definition member_string (v : value) (k : string) : result string :=
  and_then (member v k) to_string.

(** [arr.find(pred)] on the items of an array. *)
Fixpoint find_item (pred : value -> result bool) (items : list value)
  : result value :=
  match items with
  | [] => ok Undefined
  | x :: rest =>
      and_then (pred x) (fun hit => if hit then ok x else find_item pred rest)
  end.

(** [v.find(pred)]: only arrays have a [find]. *)
Definition find (v : value) (pred : value -> result bool) : result value :=
  match v with
  | Undefined | Null => raise (TypeError (CannotReadProperty "find"))
  | Arr items => find_item pred items
  | _ => raise (TypeError (NotAFunction "find"))
  end.

Definition nl : string := String "010" EmptyString.
Definition dquote : string := String "034" EmptyString.

End Js.

(** ** Effects: outbound calls and the response being written *)

Module Host.
Import Js.

Inductive http_verb : Type := GET | POST.

(** The arguments of one [axios.get] / [axios.post]. *)
Record http_request : Type := {
  verb : http_verb;
  url : string;
  data : value;                       (* the posted body; [Undefined] for a get *)
  http_headers : list (string * string);
  query : list (string * value)       (* [params] of the axios config *)
}.

Inductive axios_reply : Type :=
| Replied (response_data : value)
| Failed (message : string) (response_data : value).

(** The methods of the two provider clients. *)
Inductive api_call : Type :=
| CreateDeployment (projectName gitSource : value)
| VercelGetDeploymentStatus (deploymentId : value)
| TriggerDeployment (serviceId : value)
| GetServices
| RenderGetDeploymentStatus (serviceId : value).

Inductive event : Type :=
| Invoked (c : api_call)
| Requested (r : http_request).

(** The provider side: the reply to a request, given what went out before. *)
Definition network : Type := list event -> http_request -> axios_reply.

Record process_env : Type := {
  VERCEL_TOKEN : option string;
  RENDER_TOKEN : option string
}.

Inductive payload : Type :=
| Json (body : value)
| End.

(** [res]: the headers set so far and what was sent, oldest first. *)
Record state : Type := {
  trace : list event;
  res_headers : list (string * string);
  res_sent : list (Z * payload)
}.

Definition initial : state :=
  {| trace := []; res_headers := []; res_sent := [] |}.

Definition M (A : Type) : Type := state -> result A * state.

Definition ret {A} (a : A) : M A := fun st => (ok a, st).
Definition throw {A} (e : exn) : M A := fun st => (raise e, st).
Definition lift {A} (r : result A) : M A := fun st => (r, st).
Definition bind {A B} (c : M A) (k : A -> M B) : M B :=
  fun st =>
    match c st with
    | (inl e, st') => (inl e, st')
    | (inr a, st') => k a st'
    end.

(** [try { body } catch (error) { handler }] *)
Definition try_catch {A} (body : M A) (handler : exn -> M A) : M A :=
  fun st =>
    match body st with
    | (inl e, st') => handler e st'
    | (inr a, st') => (inr a, st')
    end.

Definition log (e : event) : M unit :=
  fun st => (ok tt, {| trace := trace st ++ [e];
                       res_headers := res_headers st;
                       res_sent := res_sent st |}).

(** [res.setHeader(name, v)] *)
Definition set_header (name v : string) : M unit :=
  fun st => (ok tt, {| trace := trace st;
                       res_headers :=
                         (name, v) ::
                         filter (fun h => negb (fst h =? name)) (res_headers st);
                       res_sent := res_sent st |}).

Definition send (code : Z) (p : payload) : M unit :=
  fun st => (ok tt, {| trace := trace st;
                       res_headers := res_headers st;
                       res_sent := res_sent st ++ [(code, p)] |}).

(** [res.status(code).json(body)] and [res.status(code).end()] *)
Definition send_json (code : Z) (body : value) : M unit := send code (Json body).
Definition send_end (code : Z) : M unit := send code End.

(** [await axios.get/post(..)]: the request goes out, then the reply
    is the response data or a rejection. *)
Definition axios (net : network) (r : http_request) : M value :=
  fun st =>
    let st' := {| trace := trace st ++ [Requested r];
                  res_headers := res_headers st;
                  res_sent := res_sent st |} in
    match net (trace st) r with
    | Replied d => (ok d, st')
    | Failed m d => (raise (AxiosError m d), st')
    end.

(** [process.env.X] followed by [if (!x) throw new Error(msg)] *)
Definition require_token (x : option string) (msg : string) : result string :=
  match x with
  | Some tok => if truthy (Str tok) then ok tok else raise (Error msg)
  | None => raise (Error msg)
  end.

Definition api_calls (t : list event) : list api_call :=
  flat_map (fun e => match e with Invoked c => [c] | Requested _ => [] end) t.

Definition http_requests (t : list event) : list http_request :=
  flat_map (fun e => match e with Invoked _ => [] | Requested r => [r] end) t.

End Host.

Declare Scope js_scope.
Delimit Scope js_scope with js.
Notation "x <- c ;; k" := (Host.bind c (fun x => k))
  (at level 61, c at next level, right associativity) : js_scope.
Notation "c ;; k" := (Host.bind c (fun _ => k))
  (at level 61, right associativity) : js_scope.
Notation "'let?' x := c 'in' k" := (Js.and_then c (fun x => k))
  (at level 61, x name, c at next level, right associativity) : js_scope.

(** ** The provider clients ([class VercelAPI], [class RenderAPI]) *)

Module Clients.
Import Js Host.
Local Open Scope js_scope.

Section WithEngine.
Variable eng : engine.

Definition vercel_baseURL : string := "https://api.vercel.com".
Definition render_baseURL : string := "https://api.render.com/v1".

Definition bearer (token : string) : string * string :=
  ("Authorization", "Bearer " ++ token).
Definition json_content : string * string :=
  ("Content-Type", "application/json").

(** [VercelAPI.createDeployment(projectName, gitSource)] *)
Definition createDeployment (net : network) (token : string)
    (projectName gitSource : value) : M value :=
  log (Invoked (CreateDeployment projectName gitSource)) ;;
  try_catch
    (axios net
       {| verb := POST;
          url := vercel_baseURL ++ "/v13/deployments";
          data := Obj [("name", projectName);
                       ("target", Str "production");
                       ("gitSource",
                        or_else gitSource
                          (Obj [("type", Str "github"); ("ref", Str "main")]))];
          http_headers := [bearer token; json_content];
          query := [] |})
    (fun error =>
       why <- lift (to_string
                (or_else
                   (opt_get (opt_get (exn_response_data error) "error") "message")
                   (Str (exn_message eng error)))) ;;
       throw (Error ("Vercel deployment failed: " ++ why))).

(** [VercelAPI.getDeploymentStatus(deploymentId)] *)
Definition vercel_getDeploymentStatus (net : network) (token : string)
    (deploymentId : value) : M value :=
  log (Invoked (VercelGetDeploymentStatus deploymentId)) ;;
  try_catch
    (id <- lift (to_string deploymentId) ;;
     axios net
       {| verb := GET;
          url := vercel_baseURL ++ "/v6/deployments/" ++ id;
          data := Undefined;
          http_headers := [bearer token];
          query := [] |})
    (fun error =>
       throw (Error ("Failed to get Vercel deployment status: "
                     ++ exn_message eng error))).

(** [RenderAPI.triggerDeployment(serviceId)] *)
Definition triggerDeployment (net : network) (token : string)
    (serviceId : value) : M value :=
  log (Invoked (TriggerDeployment serviceId)) ;;
  try_catch
    (id <- lift (to_string serviceId) ;;
     axios net
       {| verb := POST;
          url := render_baseURL ++ "/services/" ++ id ++ "/deploys";
          data := Obj [];
          http_headers := [bearer token; json_content];
          query := [] |})
    (fun error =>
       why <- lift (to_string
                (or_else
                   (opt_get (exn_response_data error) "message")
                   (Str (exn_message eng error)))) ;;
       throw (Error ("Render deployment failed: " ++ why))).

(** [RenderAPI.getServices()] *)
Definition getServices (net : network) (token : string) : M value :=
  log (Invoked GetServices) ;;
  try_catch
    (axios net
       {| verb := GET;
          url := render_baseURL ++ "/services";
          data := Undefined;
          http_headers := [bearer token];
          query := [] |})
    (fun error =>
       throw (Error ("Failed to get Render services: "
                     ++ exn_message eng error))).

(** [response.data[0]]; of a string, its first character, a string
    being read here one byte at a time. *)
Definition first_item (v : value) : result value :=
  match v with
  | Undefined | Null => raise (TypeError (CannotReadProperty "0"))
  | Arr (x :: _) => ok x
  | Str (String c _) => ok (Str (String c EmptyString))
  | Obj _ => ok (get v "0")
  | _ => ok Undefined
  end.

(** [RenderAPI.getDeploymentStatus(serviceId)] *)
Definition render_getDeploymentStatus (net : network) (token : string)
    (serviceId : value) : M value :=
  log (Invoked (RenderGetDeploymentStatus serviceId)) ;;
  try_catch
    (id <- lift (to_string serviceId) ;;
     d <- axios net
       {| verb := GET;
          url := render_baseURL ++ "/services/" ++ id ++ "/deploys";
          data := Undefined;
          http_headers := [bearer token];
          query := [("limit", Num 1)] |} ;;
     lift (first_item d))
    (fun error =>
       throw (Error ("Failed to get Render deployment status: "
                     ++ exn_message eng error))).

(** [new Date(v).toLocaleString()] *)
Definition locale_string (v : value) : result string :=
  match date_to_locale_string eng v with
  | Some s => ok s
  | None => raise (TypeError CannotConvertToPrimitive)
  end.

End WithEngine.
End Clients.

(** ** [api/mcp.ts]: the Streamable-HTTP handler *)

Module Api.
Import Js Host Clients.
Local Open Scope js_scope.

Record request : Type := {
  req_method : string;
  req_headers : list (string * string);   (* names in lower case *)
  req_body : value                         (* [Undefined] when there is none *)
}.

(** [req.headers[name]] *)
Definition req_header (req : request) (name : string) : value :=
  match List.find (fun h => fst h =? name) (req_headers req) with
  | Some (_, v) => Str v
  | None => Undefined
  end.

Definition discovery : value :=
  Obj [("message", Str "🚀 MCP Deployment Server (Streamable HTTP)");
       ("transport", Str "Streamable HTTP");
       ("specification", Str "2024-11-05");
       ("tools", Arr [Str "deploy-vercel"; Str "deploy-render"]);
       ("usage", Str "Add to Claude Code: claude mcp add deployment-orchestrator https://your-app.vercel.app/api/mcp")].

Definition initialize_result : value :=
  Obj [("protocolVersion", Str "2024-11-05");
       ("capabilities", Obj [("tools", Obj [("listChanged", Boolean true)])]);
       ("serverInfo", Obj [("name", Str "deployment-orchestrator");
                           ("version", Str "1.0.0")])].

Definition string_prop (description : string) : value :=
  Obj [("type", Str "string"); ("description", Str description)].

Definition tools_list_result : value :=
  Obj [("tools", Arr [
    Obj [("name", Str "deploy-vercel");
         ("description", Str "Deploy projects to Vercel");
         ("inputSchema", Obj [
            ("type", Str "object");
            ("properties", Obj [
               ("projectName", string_prop "Vercel project name");
               ("gitRepo", string_prop "GitHub repository (owner/repo)");
               ("branch", Obj [("type", Str "string");
                               ("description", Str "Git branch to deploy");
                               ("default", Str "main")])]);
            ("required", Arr [Str "projectName"])])];
    Obj [("name", Str "deploy-render");
         ("description", Str "Deploy services to Render");
         ("inputSchema", Obj [
            ("type", Str "object");
            ("properties", Obj [
               ("serviceId", string_prop "Render service ID");
               ("serviceName", string_prop "Service name (if you don't know the ID)")]);
            ("required", Arr [Str "serviceId"])])]])].

(** [{ jsonrpc: "2.0", result, id }] *)
Definition result_envelope (r id : value) : value :=
  Obj [("jsonrpc", Str "2.0"); ("result", r); ("id", id)].

(** [{ jsonrpc: "2.0", error: { code: -32000, message }, id }] *)
Definition error_envelope (message id : value) : value :=
  Obj [("jsonrpc", Str "2.0");
       ("error", Obj [("code", Num (-32000)); ("message", message)]);
       ("id", id)].

(** [{ content: [{ type: "text", text }] }] *)
Definition text_content (text : string) : value :=
  Obj [("content", Arr [Obj [("type", Str "text"); ("text", Str text)]])].

Section WithEngine.
Variable eng : engine.

(** The text of a started Vercel deployment. *)
Definition vercel_started (deployment : value) : result string :=
  let? id1 := member_string deployment "id" in
  let? u := member_string deployment "url" in
  let? rs := member deployment "readyState" in
  let? st := to_string (or_else rs (Str "BUILDING")) in
  let? tg := member_string deployment "target" in
  let? id2 := member_string deployment "id" in
  ok ("✅ Vercel deployment started!" ++ nl ++ nl
      ++ "🆔 Deployment ID: " ++ id1 ++ nl
      ++ "🔗 URL: https://" ++ u ++ nl
      ++ "📊 Status: " ++ st ++ nl
      ++ "🌟 Target: " ++ tg ++ nl ++ nl
      ++ "⏱️ Check status with deployment ID: " ++ id2).

(** The text of a started Render deployment. *)
Definition render_started (deployment actualServiceId : value) : result string :=
  let? id1 := member_string deployment "id" in
  let? sid := to_string actualServiceId in
  let? st := member_string deployment "status" in
  let? created := member deployment "createdAt" in
  let? at_ := locale_string eng created in
  ok ("✅ Render deployment started!" ++ nl ++ nl
      ++ "🆔 Deployment ID: " ++ id1 ++ nl
      ++ "🔗 Service ID: " ++ sid ++ nl
      ++ "📊 Status: " ++ st ++ nl
      ++ "🕐 Created: " ++ at_ ++ nl).

(** [if (name === 'deploy-vercel') { .. }] *)
Definition deploy_vercel (env : process_env) (net : network)
    (args id : value) : M unit :=
  lift (destructurable args) ;;
  let projectName := get args "projectName" in
  let gitRepo := get args "gitRepo" in
  let branch := match get args "branch" with
                | Undefined => Str "main"
                | b => b
                end in
  vercelToken <- lift (require_token (VERCEL_TOKEN env)
                         "VERCEL_TOKEN environment variable is required") ;;
  let gitSource :=
    if truthy gitRepo
    then Obj [("type", Str "github"); ("repo", gitRepo); ("ref", branch)]
    else Undefined in
  deployment <- createDeployment eng net vercelToken projectName gitSource ;;
  text <- lift (vercel_started deployment) ;;
  send_json 200 (result_envelope (text_content text) id).

(** [services.find((s) => s.name === serviceName)] *)
Definition find_service (services serviceName : value) : result value :=
  Js.find services
    (fun s => let? n := member s "name" in ok (strict_eq n serviceName)).

(** [if (name === 'deploy-render') { .. }] *)
Definition deploy_render (env : process_env) (net : network)
    (args id : value) : M unit :=
  lift (destructurable args) ;;
  let serviceId := get args "serviceId" in
  let serviceName := get args "serviceName" in
  renderToken <- lift (require_token (RENDER_TOKEN env)
                         "RENDER_TOKEN environment variable is required") ;;
  actualServiceId <-
    (if negb (truthy serviceId) && truthy serviceName
     then
       services <- getServices eng net renderToken ;;
       service <- lift (find_service services serviceName) ;;
       if negb (truthy service)
       then
         shown <- lift (to_string serviceName) ;;
         throw (Error ("Service " ++ dquote ++ shown ++ dquote ++ " not found"))
       else lift (member service "id")
     else ret serviceId) ;;
  deployment <- triggerDeployment eng net renderToken actualServiceId ;;
  text <- lift (render_started deployment actualServiceId) ;;
  send_json 200 (result_envelope (text_content text) id).

(** [if (method === 'tools/call') { .. }] *)
Definition tools_call (env : process_env) (net : network)
    (params id : value) : M unit :=
  lift (destructurable params) ;;
  let name := get params "name" in
  let args := get params "arguments" in
  if is_str name "deploy-vercel" then deploy_vercel env net args id
  else if is_str name "deploy-render" then deploy_render env net args id
  else
    shown <- lift (to_string name) ;;
    throw (Error ("Unknown tool: " ++ shown)).

(** The body of the [try] of a POST. *)
Definition post_try (env : process_env) (net : network) (uuid : string)
    (req : request) : M unit :=
  let sessionId := req_header req "mcp-session-id" in
  (if negb (truthy sessionId)
   then set_header "Mcp-Session-Id" uuid
   else ret tt) ;;
  lift (destructurable (req_body req)) ;;
  let method := get (req_body req) "method" in
  let params := get (req_body req) "params" in
  let id := get (req_body req) "id" in
  if is_str method "initialize"
  then send_json 200 (result_envelope initialize_result id)
  else if is_str method "tools/list"
  then send_json 200 (result_envelope tools_list_result id)
  else if is_str method "tools/call"
  then tools_call env net params id
  else
    shown <- lift (to_string method) ;;
    throw (Error ("Unknown method: " ++ shown)).

(** The [catch (error)] of a POST. *)
Definition post_catch (req : request) (error : exn) : M unit :=
  send_json 200
    (error_envelope (Str (exn_message eng error))
       (or_else (opt_get (req_body req) "id") Null)).

(** The three CORS headers every reply starts with. *)
Definition cors : M unit :=
  set_header "Access-Control-Allow-Origin" "*" ;;
  set_header "Access-Control-Allow-Methods" "GET, POST, OPTIONS, DELETE" ;;
  set_header "Access-Control-Allow-Headers" "Content-Type, Accept, Mcp-Session-Id".

(** [export default async function handler(req, res)]; [uuid] is what
    [uuidv4()] returns when this run asks for it. *)
Definition handler (env : process_env) (net : network) (uuid : string)
    (req : request) : M unit :=
  cors ;;
  if req_method req =? "OPTIONS" then send_end 200
  else if req_method req =? "GET" then send_json 200 discovery
  else if req_method req =? "DELETE" then send_end 200
  else if req_method req =? "POST"
  then try_catch (post_try env net uuid req) (post_catch req)
  else send_json 405 (Obj [("error", Str "Method not allowed")]).

End WithEngine.
End Api.

(** ** [server.ts]: the tools registered with the MCP SDK

    [server.tool(name, schema, callback)] hands the SDK a zod schema; the
    callback runs on arguments that passed it, so its parameters are
    typed: a [z.string()] is a string, a [z.string().optional()] may be
    [undefined], [z.string().default("main")] is always a string and a
    [z.enum(["vercel", "render"])] is one of the two. *)

Module Server.
Import Js Host Clients.
Local Open Scope js_scope.

Inductive platform : Type := Vercel | Render.

Definition platform_name (p : platform) : string :=
  match p with Vercel => "vercel" | Render => "render" end.

(** [platform.toUpperCase()] *)
Definition platform_upper (p : platform) : string :=
  match p with Vercel => "VERCEL" | Render => "RENDER" end.

(** A call of a registered tool, with its validated arguments. *)
Inductive invocation : Type :=
| DeployVercel (projectName : string) (gitRepo : option string) (branch : string)
| DeployRender (serviceId : string) (serviceName : option string)
| CheckDeploymentStatus (p : platform) (id : string)
| ListServices (p : platform).

Definition tool_name (i : invocation) : string :=
  match i with
  | DeployVercel _ _ _ => "deploy-vercel"
  | DeployRender _ _ => "deploy-render"
  | CheckDeploymentStatus _ _ => "check-deployment-status"
  | ListServices _ => "list-services"
  end.

(** The names given to [server.tool], in the order of registration. *)
Definition registered_tools : list string :=
  ["deploy-vercel"; "deploy-render"; "check-deployment-status"; "list-services"].

Definition optional (x : option string) : value :=
  match x with Some s => Str s | None => Undefined end.

Definition text_content (text : string) : value :=
  Obj [("content", Arr [Obj [("type", Str "text"); ("text", Str text)]])].

Section WithEngine.
Variable eng : engine.

Definition vercel_started (deployment : value) : result string :=
  let? id1 := member_string deployment "id" in
  let? u := member_string deployment "url" in
  let? rs := member deployment "readyState" in
  let? st := to_string (or_else rs (Str "BUILDING")) in
  let? tg := member_string deployment "target" in
  let? id2 := member_string deployment "id" in
  ok ("✅ Vercel deployment started!" ++ nl ++ nl
      ++ "🆔 Deployment ID: " ++ id1 ++ nl
      ++ "🔗 URL: https://" ++ u ++ nl
      ++ "📊 Status: " ++ st ++ nl
      ++ "🌟 Target: " ++ tg ++ nl ++ nl
      ++ "⏱️ Check status with: /deployment-orchestrator:check-deployment-status platform="
      ++ dquote ++ "vercel" ++ dquote ++ " id=" ++ dquote ++ id2 ++ dquote).

Definition render_started (deployment actualServiceId : value) : result string :=
  let? id1 := member_string deployment "id" in
  let? sid := to_string actualServiceId in
  let? st := member_string deployment "status" in
  let? created := member deployment "createdAt" in
  let? at_ := locale_string eng created in
  let? sid2 := to_string actualServiceId in
  ok ("✅ Render deployment started!" ++ nl ++ nl
      ++ "🆔 Deployment ID: " ++ id1 ++ nl
      ++ "🔗 Service ID: " ++ sid ++ nl
      ++ "📊 Status: " ++ st ++ nl
      ++ "🕐 Created: " ++ at_ ++ nl ++ nl
      ++ "⏱️ Check status with: /deployment-orchestrator:check-deployment-status platform="
      ++ dquote ++ "render" ++ dquote ++ " id=" ++ dquote ++ sid2 ++ dquote).

(** The callback of [server.tool("deploy-vercel", ..)] *)
Definition deploy_vercel (env : process_env) (net : network)
    (projectName : string) (gitRepo : option string) (branch : string) : M value :=
  try_catch
    (vercelToken <- lift (require_token (VERCEL_TOKEN env)
                            "VERCEL_TOKEN environment variable is required") ;;
     let gitSource :=
       if truthy (optional gitRepo)
       then Obj [("type", Str "github"); ("repo", optional gitRepo);
                 ("ref", Str branch)]
       else Undefined in
     deployment <- createDeployment eng net vercelToken (Str projectName) gitSource ;;
     text <- lift (vercel_started deployment) ;;
     ret (text_content text))
    (fun error =>
       ret (text_content ("❌ Vercel deployment failed: " ++ exn_message eng error))).

Definition find_service (services serviceName : value) : result value :=
  Js.find services
    (fun s => let? n := member s "name" in ok (strict_eq n serviceName)).

(** The callback of [server.tool("deploy-render", ..)] *)
Definition deploy_render (env : process_env) (net : network)
    (serviceId : string) (serviceName : option string) : M value :=
  try_catch
    (renderToken <- lift (require_token (RENDER_TOKEN env)
                            "RENDER_TOKEN environment variable is required") ;;
     actualServiceId <-
       (if negb (truthy (Str serviceId)) && truthy (optional serviceName)
        then
          services <- getServices eng net renderToken ;;
          service <- lift (find_service services (optional serviceName)) ;;
          if negb (truthy service)
          then
            shown <- lift (to_string (optional serviceName)) ;;
            throw (Error ("Service " ++ dquote ++ shown ++ dquote ++ " not found"))
          else lift (member service "id")
        else ret (Str serviceId)) ;;
     deployment <- triggerDeployment eng net renderToken actualServiceId ;;
     text <- lift (render_started deployment actualServiceId) ;;
     ret (text_content text))
    (fun error =>
       ret (text_content ("❌ Render deployment failed: " ++ exn_message eng error))).

Definition vercel_status (deployment : value) : result string :=
  let? id1 := member_string deployment "id" in
  let? u := member_string deployment "url" in
  let? st := member_string deployment "readyState" in
  let? tg := member_string deployment "target" in
  let? created := member deployment "createdAt" in
  let? at_ := locale_string eng created in
  let? rs := member deployment "readyState" in
  ok ("🆔 Deployment ID: " ++ id1 ++ nl
      ++ "🔗 URL: https://" ++ u ++ nl
      ++ "📊 Status: " ++ st ++ nl
      ++ "🌟 Target: " ++ tg ++ nl
      ++ "🕐 Created: " ++ at_ ++ nl
      ++ (if is_str rs "READY" then nl ++ "✅ Deployment is LIVE and ready!"
          else if is_str rs "ERROR" then nl ++ "❌ Deployment failed"
          else nl ++ "⏳ Deployment is still in progress...")).

Definition render_status (deployment : value) (id : string) : result string :=
  let? id1 := member_string deployment "id" in
  let? st := member_string deployment "status" in
  let? ty := member_string deployment "type" in
  let? created := member deployment "createdAt" in
  let? at_ := locale_string eng created in
  let? finishedAt := member deployment "finishedAt" in
  let? finished :=
    (if truthy finishedAt
     then let? f := locale_string eng finishedAt in
          ok ("🏁 Finished: " ++ f ++ nl)
     else ok "") in
  let? status := member deployment "status" in
  ok ("🆔 Deployment ID: " ++ id1 ++ nl
      ++ "🔗 Service ID: " ++ id ++ nl
      ++ "📊 Status: " ++ st ++ nl
      ++ "🌍 Type: " ++ ty ++ nl
      ++ "🕐 Created: " ++ at_ ++ nl
      ++ finished
      ++ (if is_str status "live" then nl ++ "✅ Deployment is LIVE and ready!"
          else if is_str status "build_failed" || is_str status "update_failed"
          then nl ++ "❌ Deployment failed"
          else nl ++ "⏳ Deployment is still in progress...")).

(** The callback of [server.tool("check-deployment-status", ..)] *)
Definition check_deployment_status (env : process_env) (net : network)
    (p : platform) (id : string) : M value :=
  try_catch
    (let head := "📊 Deployment Status - " ++ platform_upper p ++ nl ++ nl in
     match p with
     | Vercel =>
         vercelToken <- lift (require_token (VERCEL_TOKEN env)
                                "VERCEL_TOKEN environment variable is required") ;;
         deployment <- vercel_getDeploymentStatus eng net vercelToken (Str id) ;;
         text <- lift (vercel_status deployment) ;;
         ret (text_content (head ++ text))
     | Render =>
         renderToken <- lift (require_token (RENDER_TOKEN env)
                                "RENDER_TOKEN environment variable is required") ;;
         deployment <- render_getDeploymentStatus eng net renderToken (Str id) ;;
         text <- lift (render_status deployment id) ;;
         ret (text_content (head ++ text))
     end)
    (fun error =>
       ret (text_content ("❌ Failed to check deployment status: "
                          ++ exn_message eng error))).

(** One round of [services.forEach((service, index) => { result += .. })] *)
Definition service_entry (service : value) (index : Z) : result string :=
  let? n := member_string service "name" in
  let? i := member_string service "id" in
  let? t := member_string service "type" in
  let? details := member service "serviceDetails" in
  ok (string_of_Z (index + 1) ++ ". 📦 " ++ n ++ nl
      ++ "   🆔 ID: " ++ i ++ nl
      ++ "   🔗 Type: " ++ t ++ nl
      ++ "   📊 Status: "
      ++ (if truthy (opt_get details "buildCommand") then "Has build" else "Static")
      ++ nl ++ nl).

Fixpoint service_entries (items : list value) (index : Z) : result string :=
  match items with
  | [] => ok ""
  | service :: rest =>
      let? e := service_entry service index in
      let? es := service_entries rest (index + 1) in
      ok (e ++ es)
  end.

(** [services.forEach(..)]: only arrays have a [forEach]. *)
Definition for_each_service (services : value) : result string :=
  match services with
  | Undefined | Null => raise (TypeError (CannotReadProperty "forEach"))
  | Arr items => service_entries items 0
  | _ => raise (TypeError (NotAFunction "forEach"))
  end.

(** The callback of [server.tool("list-services", ..)] *)
Definition list_services (env : process_env) (net : network)
    (p : platform) : M value :=
  try_catch
    (let head := "📋 Available Services - " ++ platform_upper p ++ nl ++ nl in
     match p with
     | Render =>
         renderToken <- lift (require_token (RENDER_TOKEN env)
                                "RENDER_TOKEN environment variable is required") ;;
         services <- getServices eng net renderToken ;;
         text <- lift (for_each_service services) ;;
         ret (text_content (head ++ text))
     | Vercel =>
         ret (text_content
                (head ++ "⚠️ Vercel project listing requires additional setup." ++ nl
                 ++ "Use project name directly with deploy-vercel tool."))
     end)
    (fun error =>
       ret (text_content ("❌ Failed to list services: " ++ exn_message eng error))).

(** Running the callback registered under the invocation's name. *)
Definition run (env : process_env) (net : network) (i : invocation) : M value :=
  match i with
  | DeployVercel projectName gitRepo branch =>
      deploy_vercel env net projectName gitRepo branch
  | DeployRender serviceId serviceName =>
      deploy_render env net serviceId serviceName
  | CheckDeploymentStatus p id => check_deployment_status env net p id
  | ListServices p => list_services env net p
  end.

End WithEngine.
End Server.

(** ** [api/health.ts]: the health check *)

Module Health.
Import Js Host.

(** [process.env.X ? "✅ Set" : "❌ Missing"] *)
Definition flag (x : option string) : string :=
  if truthy (match x with Some s => Str s | None => Undefined end)
  then "✅ Set" else "❌ Missing".

(** [export default function handler(req, res)]; [now] is what
    [new Date().toISOString()] returns. *)
Definition handler (env : process_env) (now : string) : M unit :=
  send_json 200
    (Obj [("status", Str "healthy");
          ("service", Str "deployment-orchestrator");
          ("timestamp", Str now);
          ("environment",
           Obj [("vercel_token", Str (flag (VERCEL_TOKEN env)));
                ("render_token", Str (flag (RENDER_TOKEN env)))])]).

End Health.

(** ** The earlier [api/mcp.ts]: two tools registered with the MCP SDK

    The serverless entry point as it was before the hand-written
    dispatcher: [initializeMCPServer] registers [deploy-vercel] and
    [deploy-render] with the SDK, with the zod schemas of [server.ts],
    so the callbacks run on typed arguments. *)

Module Legacy.
Import Js Host Clients.
Local Open Scope js_scope.

Definition optional (x : option string) : value :=
  match x with Some s => Str s | None => Undefined end.

Definition text_content (text : string) : value :=
  Obj [("content", Arr [Obj [("type", Str "text"); ("text", Str text)]])].

Section WithEngine.
Variable eng : engine.

Definition vercel_started (deployment : value) : result string :=
  let? id1 := member_string deployment "id" in
  let? u := member_string deployment "url" in
  let? rs := member deployment "readyState" in
  let? st := to_string (or_else rs (Str "BUILDING")) in
  let? tg := member_string deployment "target" in
  let? id2 := member_string deployment "id" in
  ok ("✅ Vercel deployment started!" ++ nl ++ nl
      ++ "🆔 Deployment ID: " ++ id1 ++ nl
      ++ "🔗 URL: https://" ++ u ++ nl
      ++ "📊 Status: " ++ st ++ nl
      ++ "🌟 Target: " ++ tg ++ nl ++ nl
      ++ "⏱️ Check status with deployment ID: " ++ id2).

Definition render_started (deployment actualServiceId : value) : result string :=
  let? id1 := member_string deployment "id" in
  let? sid := to_string actualServiceId in
  let? st := member_string deployment "status" in
  let? created := member deployment "createdAt" in
  let? at_ := locale_string eng created in
  ok ("✅ Render deployment started!" ++ nl ++ nl
      ++ "🆔 Deployment ID: " ++ id1 ++ nl
      ++ "🔗 Service ID: " ++ sid ++ nl
      ++ "📊 Status: " ++ st ++ nl
      ++ "🕐 Created: " ++ at_ ++ nl).

(** The callback of [server.tool("deploy-vercel", ..)] *)
Definition deploy_vercel (env : process_env) (net : network)
    (projectName : string) (gitRepo : option string) (branch : string) : M value :=
  try_catch
    (vercelToken <- lift (require_token (VERCEL_TOKEN env)
                            "VERCEL_TOKEN environment variable is required") ;;
     let gitSource :=
       if truthy (optional gitRepo)
       then Obj [("type", Str "github"); ("repo", optional gitRepo);
                 ("ref", Str branch)]
       else Undefined in
     deployment <- createDeployment eng net vercelToken (Str projectName) gitSource ;;
     text <- lift (vercel_started deployment) ;;
     ret (text_content text))
    (fun error =>
       ret (text_content ("❌ Vercel deployment failed: " ++ exn_message eng error))).

Definition find_service (services serviceName : value) : result value :=
  Js.find services
    (fun s => let? n := member s "name" in ok (strict_eq n serviceName)).

(** The callback of [server.tool("deploy-render", ..)] *)
Definition deploy_render (env : process_env) (net : network)
    (serviceId : string) (serviceName : option string) : M value :=
  try_catch
    (renderToken <- lift (require_token (RENDER_TOKEN env)
                            "RENDER_TOKEN environment variable is required") ;;
     actualServiceId <-
       (if negb (truthy (Str serviceId)) && truthy (optional serviceName)
        then
          services <- getServices eng net renderToken ;;
          service <- lift (find_service services (optional serviceName)) ;;
          if negb (truthy service)
          then
            shown <- lift (to_string (optional serviceName)) ;;
            throw (Error ("Service " ++ dquote ++ shown ++ dquote ++ " not found"))
          else lift (member service "id")
        else ret (Str serviceId)) ;;
     deployment <- triggerDeployment eng net renderToken actualServiceId ;;
     text <- lift (render_started deployment actualServiceId) ;;
     ret (text_content text))
    (fun error =>
       ret (text_content ("❌ Render deployment failed: " ++ exn_message eng error))).

End WithEngine.
End Legacy.

(** ** [server.ts]: the table of SSE sessions

    [transports] is an object used as a map from session identifier to
    transport.  [GET /sse] stores the new transport under its
    identifier, the [close] of its response deletes that key, and
    [POST /messages] looks the identifier of the query up.  The
    transports themselves, and the identifiers they draw, are the
    SDK's. *)

Module Sessions.
Import Js.
Local Open Scope list_scope.

(** A transport: its [sessionId], and the connection it writes to. *)
Record transport : Type := {
  sessionId : string;
  connection : nat
}.

(** The own properties of [transports]. *)
Definition table : Type := list (string * transport).

(** The property names an object literal inherits: reading one of them
    from [transports] gives a value that is truthy, though no transport. *)
Definition inherited (key : string) : bool :=
  existsb (String.eqb key)
    ["constructor"; "__defineGetter__"; "__defineSetter__"; "hasOwnProperty";
     "__lookupGetter__"; "__lookupSetter__"; "isPrototypeOf";
     "propertyIsEnumerable"; "toString"; "valueOf"; "__proto__";
     "toLocaleString"]%string.

Fixpoint own (key : string) (t : table) : option transport :=
  match t with
  | [] => None
  | (k, tr) :: rest => if (k =? key)%string then Some tr else own key rest
  end.

(** [delete transports[key]] *)
Definition remove (key : string) (t : table) : table :=
  filter (fun e => negb (fst e =? key)%string) t.

(** [transports[key] = tr], for a key other than [__proto__]. *)
Definition store (key : string) (tr : transport) (t : table) : table :=
  (key, tr) :: remove key t.

(** [app.get("/sse", ..)], up to the connection of the server. *)
Definition sse_open (tr : transport) (t : table) : table :=
  store (sessionId tr) tr t.

(** [res.on("close", ..)] of the transport [tr]. *)
Definition sse_close (tr : transport) (t : table) : table :=
  remove (sessionId tr) t.

(** What [POST /messages] decides. *)
Inductive routing : Type :=
| Handled (tr : transport)        (* transport.handlePostMessage(req, res) *)
| NotFound (status : Z) (body : string)
| Threw (e : exn).

(** [app.post("/messages", ..)]; [query] is [req.query.sessionId], and a
    missing one indexes as ["undefined"]. *)
Definition post_messages (query : option string) (t : table) : routing :=
  let key := match query with Some s => s | None => "undefined"%string end in
  match own key t with
  | Some tr => Handled tr
  | None =>
      if inherited key
      then Threw (TypeError (NotAFunction "handlePostMessage"))
      else NotFound 400 "No transport found for sessionId"
  end.

End Sessions.

(** ** [api/mcp.ts] on the wire: [req.body] as the framework gives it

    [req.body] is a property the runtime of [@vercel/node] computes when
    it is read: a body that decodes is the decoded value from then on, a
    body that does not decode makes every read throw.  The outcome of
    the decoding is an input of the run; the handler below is the one of
    [api/mcp.ts] with each read of [req.body] where the source has it. *)

Module Wire.
Import Js Host Clients.
Local Open Scope js_scope.

Inductive body : Type :=
| Decoded (v : value)      (* what reading [req.body] gives *)
| Malformed (e : exn).     (* what reading [req.body] throws, each time *)

Record request : Type := {
  req_method : string;
  req_headers : list (string * string);
  req_body : body
}.

(** [req.headers[name]] *)
Definition req_header (req : request) (name : string) : value :=
  match List.find (fun h => fst h =? name) (req_headers req) with
  | Some (_, v) => Str v
  | None => Undefined
  end.

(** [req.body] *)
Definition read_body (req : request) : M value :=
  match req_body req with
  | Decoded v => ret v
  | Malformed e => throw e
  end.

Section WithEngine.
Variable eng : engine.

(** The body of the [try] of a POST. *)
Definition post_try (env : process_env) (net : network) (uuid : string)
    (req : request) : M unit :=
  let sessionId := req_header req "mcp-session-id" in
  (if negb (truthy sessionId)
   then set_header "Mcp-Session-Id" uuid
   else ret tt) ;;
  body <- read_body req ;;
  lift (destructurable body) ;;
  let method := get body "method" in
  let params := get body "params" in
  let id := get body "id" in
  if is_str method "initialize"
  then send_json 200 (Api.result_envelope Api.initialize_result id)
  else if is_str method "tools/list"
  then send_json 200 (Api.result_envelope Api.tools_list_result id)
  else if is_str method "tools/call"
  then Api.tools_call eng env net params id
  else
    shown <- lift (to_string method) ;;
    throw (Error ("Unknown method: " ++ shown)).

(** The [catch (error)] of a POST: the envelope is built, [req.body]
    read for its [id], and then sent. *)
Definition post_catch (req : request) (error : exn) : M unit :=
  body <- read_body req ;;
  send_json 200
    (Api.error_envelope (Str (exn_message eng error))
       (or_else (opt_get body "id") Null)).

(** [export default async function handler(req, res)] *)
Definition handler (env : process_env) (net : network) (uuid : string)
    (req : request) : M unit :=
  Api.cors ;;
  if req_method req =? "OPTIONS" then send_end 200
  else if req_method req =? "GET" then send_json 200 Api.discovery
  else if req_method req =? "DELETE" then send_end 200
  else if req_method req =? "POST"
  then try_catch (post_try env net uuid req) (post_catch req)
  else send_json 405 (Obj [("error", Str "Method not allowed")]).

End WithEngine.

(** The request as the handler sees it once its body has decoded to [v]. *)
Definition decoded (req : request) (v : value) : Api.request :=
  {| Api.req_method := req_method req;
     Api.req_headers := req_headers req;
     Api.req_body := v |}.

End Wire.

(** * Reasoning about runs *)

(** ** The vocabulary of the statements *)

Module Props.
Import Js Host Clients Api.
Local Open Scope js_scope.
Local Open Scope list_scope.

(** A computation that writes nothing to the response. *)
Definition silent {A} (c : M A) : Prop :=
  forall st,
    res_sent (snd (c st)) = res_sent st /\
    res_headers (snd (c st)) = res_headers st.

(** A computation that lets nothing out: no client call, no request. *)
Definition offline {A} (c : M A) : Prop :=
  forall st, trace (snd (c st)) = trace st.

(** A computation that lets out exactly [es], however it ends. *)
Definition emits {A} (es : list event) (c : M A) : Prop :=
  forall st, trace (snd (c st)) = trace st ++ es.

(** A computation whose value, when it completes, satisfies [P]. *)
Definition yields {A} (P : A -> Prop) (c : M A) : Prop :=
  forall st,
    match fst (c st) with
    | inr a => P a
    | inl _ => True
    end.

(** A computation that, when it completes, has sent exactly one result
    envelope for [id], and that has sent nothing when it throws. *)
Definition replies (id : value) (c : M unit) : Prop :=
  forall st,
    res_headers (snd (c st)) = res_headers st /\
    match fst (c st) with
    | inr _ => exists r,
        res_sent (snd (c st)) =
        res_sent st ++ [(200%Z, Json (result_envelope r id))]
    | inl _ => res_sent (snd (c st)) = res_sent st
    end.

Definition went_out (st : state) (es : list event) : state :=
  {| trace := trace st ++ es;
     res_headers := res_headers st;
     res_sent := res_sent st |}.

(** The headers after the session step of a POST. *)
Definition minted (uuid : string) (req : request)
    (hs : list (string * string)) : list (string * string) :=
  if negb (truthy (req_header req "mcp-session-id"))
  then ("Mcp-Session-Id"%string, uuid)
         :: filter (fun h => negb (fst h =? "Mcp-Session-Id")%string) hs
  else hs.

(** The state in which the [try] of a POST goes on after the session step. *)
Definition at_session (uuid : string) (req : request) (st : state) : state :=
  snd ((if negb (truthy (req_header req "mcp-session-id"))
        then set_header "Mcp-Session-Id" uuid else ret tt) st).

(** [res.getHeader(name)] on what a run leaves. *)
Definition response_header (st : state) (name : string) : option string :=
  option_map snd (List.find (fun h => (fst h =? name)%string) (res_headers st)).

Definition is_object (v : value) : bool :=
  match v with Obj _ => true | _ => false end.

(** The names of the descriptors in a [tools/list] result. *)
Definition tool_names (r : value) : list value :=
  match get r "tools" with
  | Arr descriptors => map (fun d => get d "name") descriptors
  | _ => []
  end.

(** [s.name === n] *)
Definition name_is (n : string) (s : value) : bool :=
  strict_eq (get s "name") (Str n).

(** The requests the clients build. *)
Definition create_request (token : string) (projectName gitSource : value)
  : http_request :=
  {| verb := POST;
     url := (vercel_baseURL ++ "/v13/deployments")%string;
     data := Obj [("name"%string, projectName);
                  ("target"%string, Str "production");
                  ("gitSource"%string,
                   or_else gitSource
                     (Obj [("type"%string, Str "github");
                           ("ref"%string, Str "main")]))];
     http_headers := [bearer token; json_content];
     query := [] |}.

Definition services_request (token : string) : http_request :=
  {| verb := GET;
     url := (render_baseURL ++ "/services")%string;
     data := Undefined;
     http_headers := [bearer token];
     query := [] |}.

Definition deploys_request (token id : string) : http_request :=
  {| verb := POST;
     url := (render_baseURL ++ "/services/" ++ id ++ "/deploys")%string;
     data := Obj [];
     http_headers := [bearer token; json_content];
     query := [] |}.

(** What [triggerDeployment(serviceId)] lets out: its call, and the
    request when the identifier goes into the URL. *)
Definition trigger_events (token : string) (serviceId : value) : list event :=
  Invoked (TriggerDeployment serviceId)
  :: match to_string serviceId with
     | inr id => [Requested (deploys_request token id)]
     | inl _ => []
     end.

(** The rest of [deploy-render] once the service identifier is known. *)
Definition render_tail (eng : engine) (net : network) (tok : string)
    (actualServiceId id : value) : M unit :=
  deployment <- triggerDeployment eng net tok actualServiceId ;;
  text <- lift (render_started eng deployment actualServiceId) ;;
  send_json 200 (result_envelope (text_content text) id).

(** The tool is the one [tools/call] runs for the name. *)
Definition dispatches (eng : engine) (env : process_env) (net : network)
    (name : value) (tool : value -> value -> M unit) : Prop :=
  forall params id st,
    nullish params = false -> get params "name" = name ->
    tools_call eng env net params id st = tool (get params "arguments") id st.

(** [tools/call] runs one of its tools for the name. *)
Definition accepted (eng : engine) (env : process_env) (net : network)
    (name : value) : Prop :=
  dispatches eng env net name (deploy_vercel eng env net) \/
  dispatches eng env net name (deploy_render eng env net).

(** [tools/call] runs no tool for the name: it throws at once. *)
Definition unknown_tool (eng : engine) (env : process_env) (net : network)
    (name : value) : Prop :=
  forall params id st,
    nullish params = false -> get params "name" = name ->
    tools_call eng env net params id st
    = (and_then (to_string name)
         (fun shown => raise (Error ("Unknown tool: " ++ shown)%string)), st).

Inductive token : Type := VercelToken | RenderToken.

Definition env_token (e : process_env) (t : token) : option string :=
  match t with
  | VercelToken => VERCEL_TOKEN e
  | RenderToken => RENDER_TOKEN e
  end.

Definition token_message (t : token) : string :=
  match t with
  | VercelToken => "VERCEL_TOKEN environment variable is required"
  | RenderToken => "RENDER_TOKEN environment variable is required"
  end.

(** [process.env.X] is missing, or empty. *)
Definition unset (x : option string) : Prop :=
  x = None \/ x = Some ""%string.

(** The token a tool of [api/mcp.ts] asks for. *)
Definition api_tool_token (name : string) : option token :=
  if (name =? "deploy-vercel")%string then Some VercelToken
  else if (name =? "deploy-render")%string then Some RenderToken
  else None.

(** The token a tool of [server.ts] asks for; listing Vercel projects
    asks for none. *)
Definition server_tool_token (i : Server.invocation) : option token :=
  match i with
  | Server.DeployVercel _ _ _ => Some VercelToken
  | Server.DeployRender _ _ => Some RenderToken
  | Server.CheckDeploymentStatus Server.Vercel _ => Some VercelToken
  | Server.CheckDeploymentStatus Server.Render _ => Some RenderToken
  | Server.ListServices Server.Render => Some RenderToken
  | Server.ListServices Server.Vercel => None
  end.

(** How the [catch] of each callback of [server.ts] opens its text. *)
Definition failure_prefix (i : Server.invocation) : string :=
  match i with
  | Server.DeployVercel _ _ _ => "❌ Vercel deployment failed: "
  | Server.DeployRender _ _ => "❌ Render deployment failed: "
  | Server.CheckDeploymentStatus _ _ => "❌ Failed to check deployment status: "
  | Server.ListServices _ => "❌ Failed to list services: "
  end.

(** A [{ content: [{ type: "text", text }] }] value. *)
Definition is_text_content (v : value) : Prop :=
  exists text, v = Server.text_content text.

End Props.

(** ** The handler as a process: dispatch, and the requests in a row *)

Module Process.
Import Js Host Clients Api Props.
Local Open Scope js_scope.
Local Open Scope list_scope.








(** What a [z.string().default(d)] of a schema hands to the callback. *)
Definition defaulted (x : option string) (d : string) : string :=
  match x with Some s => s | None => d end.

End Process.

(** ** Concrete runs: an engine, two environments, a provider *)

Module Fixtures.
Import Js Host Clients Api.
Local Open Scope list_scope.

(** An engine with short message texts and a fixed locale. *)
Definition plain_engine : engine :=
  {| type_error_message := fun w =>
       match w with
       | CannotDestructure =>
           "Cannot destructure property of undefined"
       | CannotReadProperty k =>
           ("Cannot read properties of undefined (reading '" ++ k ++ "')")%string
       | NotAFunction f => (f ++ " is not a function")%string
       | CannotConvertToPrimitive =>
           "Cannot convert object to primitive value"
       end;
     date_to_locale_string := fun _ => Some "1/1/2025, 12:00:00 AM"%string |}.

Definition with_tokens : process_env :=
  {| VERCEL_TOKEN := Some "vercel-token"%string;
     RENDER_TOKEN := Some "render-token"%string |}.

Definition without_tokens : process_env :=
  {| VERCEL_TOKEN := None; RENDER_TOKEN := None |}.

(** A provider with one Render service, [api] = [srv-1], that accepts
    every deployment. *)
Definition provider : network := fun _ r =>
  match verb r with
  | GET =>
      Replied (Arr [Obj [("id"%string, Str "srv-1");
                         ("name"%string, Str "api");
                         ("type"%string, Str "web_service")]])
  | POST =>
      Replied (Obj [("id"%string, Str "dep_1");
                    ("url"%string, Str "demo.example");
                    ("readyState"%string, Str "BUILDING");
                    ("target"%string, Str "production")])
  end.

Definition post (headers : list (string * string)) (body : value) : request :=
  {| req_method := "POST"; req_headers := headers; req_body := body |}.

(** [{ jsonrpc: "2.0", method, id }] *)
Definition call (method : string) (id : value) : value :=
  Obj [("jsonrpc"%string, Str "2.0"); ("method"%string, Str method);
       ("id"%string, id)].

(** [{ jsonrpc: "2.0", method: "tools/call", params: { name, arguments }, id }] *)
Definition tool_call (name : string) (arguments id : value) : value :=
  Obj [("jsonrpc"%string, Str "2.0");
       ("method"%string, Str "tools/call");
       ("params"%string, Obj [("name"%string, Str name);
                              ("arguments"%string, arguments)]);
       ("id"%string, id)].


End Fixtures.

(** ** Bounds and invariants of what goes out *)

Module Bounds.
Import Js Host Clients.
Local Open Scope list_scope.

(** A computation that sends at most [n] requests. *)
Definition at_most {A} (n : nat) (c : M A) : Prop :=
  forall st,
    List.length (http_requests (trace (snd (c st))))
    <= List.length (http_requests (trace st)) + n.

(** A computation that keeps [P] true of everything that went out. *)
Definition preserves {A} (P : event -> Prop) (c : M A) : Prop :=
  forall st, Forall P (trace st) -> Forall P (trace (snd (c st))).

(** [Authorization] of a request. *)
Definition authorization (r : http_request) : option string :=
  option_map snd
    (List.find (fun h => (fst h =? "Authorization")%string) (http_headers r)).

(** A request goes to Vercel with the Vercel token of the environment,
    or to Render with its Render token. *)
Definition authorized (env : process_env) (e : event) : Prop :=
  match e with
  | Invoked _ => True
  | Requested r =>
      (exists tok,
          VERCEL_TOKEN env = Some tok /\
          prefix "https://api.vercel.com/" (url r) = true /\
          authorization r = Some ("Bearer " ++ tok)%string) \/
      (exists tok,
          RENDER_TOKEN env = Some tok /\
          prefix "https://api.render.com/" (url r) = true /\
          authorization r = Some ("Bearer " ++ tok)%string)
  end.

(** The requests of the two status methods. *)
Definition vercel_status_request (token id : string) : http_request :=
  {| verb := GET;
     url := (vercel_baseURL ++ "/v6/deployments/" ++ id)%string;
     data := Undefined;
     http_headers := [bearer token];
     query := [] |}.

Definition render_status_request (token id : string) : http_request :=
  {| verb := GET;
     url := (render_baseURL ++ "/services/" ++ id ++ "/deploys")%string;
     data := Undefined;
     http_headers := [bearer token];
     query := [("limit"%string, Num 1)] |}.

(** The request names [deploy-render] and gives it a [serviceName] and
    no [serviceId]. *)
Definition by_name (req : Api.request) : bool :=
  is_str (get (get (Api.req_body req) "params") "name") "deploy-render"
  && negb (truthy (get (get (get (Api.req_body req) "params") "arguments")
                     "serviceId"))
  && truthy (get (get (get (Api.req_body req) "params") "arguments")
               "serviceName").

(** The [gitSource] that [deploy-vercel] of [api/mcp.ts] builds from its
    arguments. *)
Definition vercel_git_source (args : value) : value :=
  if truthy (get args "gitRepo")
  then Obj [("type"%string, Str "github");
            ("repo"%string, get args "gitRepo");
            ("ref"%string,
             match get args "branch" with
             | Undefined => Str "main"
             | b => b
             end)]
  else Undefined.

(** The key under which the health check reports a token. *)
Definition health_key (t : Props.token) : string :=
  match t with
  | Props.VercelToken => "vercel_token"
  | Props.RenderToken => "render_token"
  end.

(** A branch [a] of the hand-written dispatcher and the body [l] of the
    [try] of an SDK callback do the same: the same calls, the same
    exception, or the text [l] returns sent by [a] as the result for
    [id]. *)
Definition agrees (id : value) (a : M unit) (l : M value) : Prop :=
  forall st,
    trace (snd (a st)) = trace (snd (l st)) /\
    match fst (a st), fst (l st) with
    | inr _, inr v =>
        exists text,
          v = Api.text_content text /\
          res_sent (snd (a st))
          = res_sent st
            ++ [(200%Z, Json (Api.result_envelope (Api.text_content text) id))]
    | inl e, inl e' => e = e' /\ res_sent (snd (a st)) = res_sent st
    | _, _ => False
    end.

(** How many requests a callback of [server.ts] may send. *)
Definition server_budget (i : Server.invocation) : nat :=
  match i with
  | Server.DeployRender _ _ => 2
  | Server.ListServices Server.Vercel => 0
  | _ => 1
  end.

End Bounds.

(** ** The conversions of the runtime *)

Module JsFacts.
Import Js.
Local Open Scope list_scope.





End JsFacts.

(** ** Laws of the effect combinators *)

Module Logic.
Import Js Host Props.
Local Open Scope js_scope.
Local Open Scope list_scope.

Lemma bind_ok {A B} (c : M A) (k : A -> M B) (st st' : state) (a : A) :
  c st = (inr a, st') -> bind c k st = k a st'.
Proof. unfold bind. intros ->. reflexivity. Qed.

Lemma bind_raise {A B} (c : M A) (k : A -> M B) (st st' : state) (e : exn) :
  c st = (inl e, st') -> bind c k st = (inl e, st').
Proof. unfold bind. intros ->. reflexivity. Qed.

Lemma api_calls_app (t u : list event) :
  api_calls (t ++ u) = api_calls t ++ api_calls u.
Proof. unfold api_calls. apply flat_map_app. Qed.

Lemma http_requests_app (t u : list event) :
  http_requests (t ++ u) = http_requests t ++ http_requests u.
Proof. unfold http_requests. apply flat_map_app. Qed.

(** *** [silent] *)

Lemma silent_ret {A} (a : A) : silent (ret a).
Proof. intros st; split; reflexivity. Qed.

Lemma silent_throw {A} (e : exn) : silent (@throw A e).
Proof. intros st; split; reflexivity. Qed.

Lemma silent_lift {A} (r : result A) : silent (lift r).
Proof. intros st; split; reflexivity. Qed.

Lemma silent_log (e : event) : silent (log e).
Proof. intros st; split; reflexivity. Qed.

Lemma silent_axios (net : network) (r : http_request) : silent (axios net r).
Proof.
  intros st; unfold axios.
  destruct (net (trace st) r); split; reflexivity.
Qed.

Lemma silent_bind {A B} (c : M A) (k : A -> M B) :
  silent c -> (forall a, silent (k a)) -> silent (bind c k).
Proof.
  intros Hc Hk st. unfold bind.
  destruct (Hc st) as [Hs Hh].
  destruct (c st) as [[e | a] st1]; simpl in *.
  - split; assumption.
  - destruct (Hk a st1) as [Hs' Hh']. split; congruence.
Qed.

Lemma silent_try_catch {A} (c : M A) (h : exn -> M A) :
  silent c -> (forall e, silent (h e)) -> silent (try_catch c h).
Proof.
  intros Hc Hh st. unfold try_catch.
  destruct (Hc st) as [Hs Hd].
  destruct (c st) as [[e | a] st1]; simpl in *.
  - destruct (Hh e st1) as [Hs' Hd']. split; congruence.
  - split; assumption.
Qed.

(** *** [offline] and [emits] *)

Lemma offline_ret {A} (a : A) : offline (ret a).
Proof. intros st; reflexivity. Qed.

Lemma offline_throw {A} (e : exn) : offline (@throw A e).
Proof. intros st; reflexivity. Qed.

Lemma offline_lift {A} (r : result A) : offline (lift r).
Proof. intros st; reflexivity. Qed.

Lemma offline_set_header (k v : string) : offline (set_header k v).
Proof. intros st; reflexivity. Qed.

Lemma offline_send_json (code : Z) (body : value) : offline (send_json code body).
Proof. intros st; reflexivity. Qed.

Lemma offline_bind {A B} (c : M A) (k : A -> M B) :
  offline c -> (forall a, offline (k a)) -> offline (bind c k).
Proof.
  intros Hc Hk st. unfold bind.
  specialize (Hc st).
  destruct (c st) as [[e | a] st1]; simpl in *.
  - assumption.
  - rewrite (Hk a st1). assumption.
Qed.

Lemma emits_offline {A} (c : M A) : offline c -> emits [] c.
Proof. intros H st. rewrite H, app_nil_r. reflexivity. Qed.

Lemma emits_axios (net : network) (r : http_request) :
  emits [Requested r] (axios net r).
Proof. intros st. unfold axios. destruct (net (trace st) r); reflexivity. Qed.

Lemma emits_bind {A B} (es : list event) (c : M A) (k : A -> M B) :
  emits es c -> (forall a, emits [] (k a)) -> emits es (bind c k).
Proof.
  intros Hc Hk st. unfold bind. specialize (Hc st).
  destruct (c st) as [[e | a] st1]; simpl in *.
  - exact Hc.
  - rewrite (Hk a st1), app_nil_r. exact Hc.
Qed.

Lemma emits_try_catch {A} (es : list event) (c : M A) (h : exn -> M A) :
  emits es c -> (forall e, emits [] (h e)) -> emits es (try_catch c h).
Proof.
  intros Hc Hh st. unfold try_catch. specialize (Hc st).
  destruct (c st) as [[e | a] st1]; simpl in *.
  - rewrite (Hh e st1), app_nil_r. exact Hc.
  - exact Hc.
Qed.

(** What is logged comes first. *)
Lemma emits_log_then {A} (e : event) (es : list event) (c : M A) :
  emits es c -> emits (e :: es) (log e ;; c).
Proof.
  intros Hc st.
  rewrite (bind_ok _ _ st (went_out st [e]) tt eq_refl).
  rewrite (Hc _). simpl. rewrite <- app_assoc. reflexivity.
Qed.

(** A conversion that fails stops the run before anything goes out. *)
Lemma emits_lift_then {A B} (r : result A) (k : A -> M B)
    (es : A -> list event) :
  (forall a, emits (es a) (k a)) ->
  emits (match r with inr a => es a | inl _ => [] end) (x <- lift r ;; k x).
Proof.
  intros Hk st. destruct r as [e | a].
  - simpl. rewrite app_nil_r. reflexivity.
  - rewrite (bind_ok _ _ st st a eq_refl). apply Hk.
Qed.

(** *** [yields] *)

Lemma yields_ret {A} (P : A -> Prop) (a : A) : P a -> yields P (ret a).
Proof. intros H st. exact H. Qed.

Lemma yields_throw {A} (P : A -> Prop) (e : exn) : yields P (throw e).
Proof. intros st. exact I. Qed.

Lemma yields_bind {A B} (P : B -> Prop) (c : M A) (k : A -> M B) :
  (forall a, yields P (k a)) -> yields P (bind c k).
Proof.
  intros Hk st. unfold bind.
  destruct (c st) as [[e | a] st1]; simpl.
  - exact I.
  - apply Hk.
Qed.

(** A [catch] that returns makes the whole [try] return. *)
Lemma try_catch_returns {A} (P : A -> Prop) (c : M A) (f : exn -> A) (st : state) :
  yields P c -> (forall e, P (f e)) ->
  exists a st', try_catch c (fun e => ret (f e)) st = (inr a, st') /\ P a.
Proof.
  intros Hc Hf. unfold try_catch. specialize (Hc st).
  destruct (c st) as [[e | a] st1]; simpl in *.
  - exists (f e), st1. split; [reflexivity | apply Hf].
  - exists a, st1. split; [reflexivity | exact Hc].
Qed.

Create HintDb silent.
Create HintDb offline.

#[export] Hint Resolve silent_ret silent_throw silent_lift silent_log
  silent_axios silent_bind silent_try_catch : silent.
#[export] Hint Resolve offline_ret offline_throw offline_lift
  offline_set_header offline_send_json offline_bind : offline.

End Logic.

(** ** The provider clients *)

Module ClientFacts.
Import Js Host Clients Props Logic.
Local Open Scope js_scope.
Local Open Scope list_scope.

Section WithWorld.
Variable eng : engine.
Variable net : network.
Variable token : string.

Lemma silent_createDeployment projectName gitSource :
  silent (createDeployment eng net token projectName gitSource).
Proof. unfold createDeployment; auto 10 with silent. Qed.

Lemma silent_triggerDeployment serviceId :
  silent (triggerDeployment eng net token serviceId).
Proof. unfold triggerDeployment; auto 10 with silent. Qed.

Lemma silent_getServices : silent (getServices eng net token).
Proof. unfold getServices; auto 10 with silent. Qed.

(** One call, one request. *)
Lemma emits_createDeployment projectName gitSource :
  emits [Invoked (CreateDeployment projectName gitSource);
         Requested (create_request token projectName gitSource)]
    (createDeployment eng net token projectName gitSource).
Proof.
  unfold createDeployment. apply emits_log_then.
  apply emits_try_catch; [apply emits_axios |].
  intros e. apply emits_offline. auto with offline.
Qed.

Lemma emits_getServices :
  emits [Invoked GetServices; Requested (services_request token)]
    (getServices eng net token).
Proof.
  unfold getServices. apply emits_log_then.
  apply emits_try_catch; [apply emits_axios |].
  intros e. apply emits_offline. auto with offline.
Qed.

Lemma emits_triggerDeployment serviceId :
  emits (trigger_events token serviceId)
    (triggerDeployment eng net token serviceId).
Proof.
  unfold triggerDeployment, trigger_events. apply emits_log_then.
  apply emits_try_catch.
  - apply (emits_lift_then (to_string serviceId) _
             (fun id => [Requested (deploys_request token id)])).
    intros id. apply emits_axios.
  - intros e. apply emits_offline. auto with offline.
Qed.

(** The reply of [getServices] when the listing succeeds. *)
Lemma getServices_replied (st : state) (d : value) :
  net (trace st ++ [Invoked GetServices]) (services_request token) = Replied d ->
  getServices eng net token st
  = (ok d, went_out st [Invoked GetServices; Requested (services_request token)]).
Proof.
  intros Hnet. unfold getServices.
  rewrite (bind_ok _ _ st (went_out st [Invoked GetServices]) tt eq_refl).
  unfold try_catch, axios. simpl trace.
  fold (services_request token). rewrite Hnet.
  unfold went_out. simpl. rewrite <- app_assoc. reflexivity.
Qed.

End WithWorld.

#[export] Hint Resolve silent_createDeployment silent_triggerDeployment
  silent_getServices : silent.

Lemma trigger_events_calls (token : string) (serviceId : value) :
  api_calls (trigger_events token serviceId) = [TriggerDeployment serviceId].
Proof.
  unfold trigger_events. destruct (to_string serviceId); reflexivity.
Qed.

End ClientFacts.

(** ** The dispatcher of [api/mcp.ts] *)

Module ApiFacts.
Import Js Host Clients Api Props Logic ClientFacts.
Local Open Scope js_scope.
Local Open Scope list_scope.

Lemma replies_send (r id : value) :
  replies id (send_json 200 (result_envelope r id)).
Proof. intros st; simpl; split; [reflexivity | exists r; reflexivity]. Qed.

Lemma replies_throw (id : value) (e : exn) : replies id (throw e).
Proof. intros st; simpl; split; reflexivity. Qed.

Lemma replies_bind {A} (id : value) (c : M A) (k : A -> M unit) :
  silent c -> (forall a, replies id (k a)) -> replies id (bind c k).
Proof.
  intros Hc Hk st. unfold bind.
  destruct (Hc st) as [Hs Hh].
  destruct (c st) as [[e | a] st1]; simpl in *.
  - split; assumption.
  - destruct (Hk a st1) as [Hh' Hs'].
    split; [congruence |].
    destruct (fst (k a st1)); [congruence |].
    destruct Hs' as [r Hr]. exists r. congruence.
Qed.

Lemma get_str_object (v : value) (k s : string) :
  get v k = Str s -> nullish v = false.
Proof. destruct v; simpl; intros H; try discriminate; reflexivity. Qed.

Lemma truthy_str (s : string) : s <> ""%string -> truthy (Str s) = true.
Proof.
  intros H. simpl. destruct (String.eqb_spec s ""); [contradiction | reflexivity].
Qed.

Lemma require_token_set (tok msg : string) :
  tok <> ""%string -> require_token (Some tok) msg = ok tok.
Proof. intros H. unfold require_token. rewrite (truthy_str _ H). reflexivity. Qed.

Lemma require_token_unset (x : option string) (msg : string) :
  unset x -> require_token x msg = raise (Error msg).
Proof. intros [-> | ->]; reflexivity. Qed.

Lemma api_tool_token_inv (name : string) (t : token) :
  api_tool_token name = Some t ->
  (name = "deploy-vercel"%string /\ t = VercelToken) \/
  (name = "deploy-render"%string /\ t = RenderToken).
Proof.
  unfold api_tool_token.
  destruct (String.eqb_spec name "deploy-vercel").
  - intros [= <-]. left; auto.
  - destruct (String.eqb_spec name "deploy-render").
    + intros [= <-]. right; auto.
    + discriminate.
Qed.

(** [services.find] on a listing without [null] entries is the first
    entry of that name. *)
Lemma find_service_items (services : list value) (n : string) :
  Forall (fun s => nullish s = false) services ->
  find_service (Arr services) (Str n)
  = ok (match List.find (name_is n) services with
        | Some s => s
        | None => Undefined
        end).
Proof.
  unfold find_service. simpl Js.find.
  induction 1 as [| s rest Hs _ IH]; simpl.
  - reflexivity.
  - unfold member. rewrite Hs. simpl. fold (name_is n s).
    destruct (name_is n s); [reflexivity | exact IH].
Qed.

Lemma name_is_truthy (n : string) (s : value) :
  name_is n s = true -> truthy s = true /\ nullish s = false.
Proof.
  unfold name_is. destruct s; simpl; intros H; try discriminate; auto.
Qed.

Section WithWorld.
Variable eng : engine.
Variable env : process_env.
Variable net : network.

(** *** Every branch answers once, or throws having sent nothing *)

Lemma replies_deploy_vercel (args id : value) :
  replies id (deploy_vercel eng env net args id).
Proof.
  unfold deploy_vercel.
  repeat (apply replies_bind; [auto with silent | intros ?]).
  apply replies_send.
Qed.

Lemma silent_actual_service_id (renderToken : string)
    (serviceId serviceName : value) :
  silent
    (if negb (truthy serviceId) && truthy serviceName
     then
       services <- getServices eng net renderToken ;;
       service <- lift (find_service services serviceName) ;;
       if negb (truthy service)
       then
         shown <- lift (to_string serviceName) ;;
         throw (Error ("Service " ++ dquote ++ shown ++ dquote
                       ++ " not found")%string)
       else lift (member service "id")
     else ret serviceId).
Proof.
  destruct (negb (truthy serviceId) && truthy serviceName); [| auto with silent].
  apply silent_bind; [auto with silent | intros services].
  apply silent_bind; [auto with silent | intros service].
  destruct (negb (truthy service)); auto with silent.
Qed.

Lemma replies_deploy_render (args id : value) :
  replies id (deploy_render eng env net args id).
Proof.
  unfold deploy_render.
  apply replies_bind; [auto with silent | intros _].
  apply replies_bind; [auto with silent | intros renderToken].
  apply replies_bind; [apply silent_actual_service_id | intros actual].
  repeat (apply replies_bind; [auto with silent | intros ?]).
  apply replies_send.
Qed.

Lemma replies_tools_call (params id : value) :
  replies id (tools_call eng env net params id).
Proof.
  unfold tools_call.
  apply replies_bind; [auto with silent | intros _].
  destruct (is_str _ "deploy-vercel"); [apply replies_deploy_vercel |].
  destruct (is_str _ "deploy-render"); [apply replies_deploy_render |].
  apply replies_bind; [auto with silent | intros shown].
  apply replies_throw.
Qed.

Lemma post_try_spec (uuid : string) (req : request) (st : state) :
  res_headers (snd (post_try eng env net uuid req st))
  = minted uuid req (res_headers st) /\
  match fst (post_try eng env net uuid req st) with
  | inr _ => exists r,
      res_sent (snd (post_try eng env net uuid req st)) =
      res_sent st
      ++ [(200%Z, Json (result_envelope r (get (req_body req) "id")))]
  | inl _ => res_sent (snd (post_try eng env net uuid req st)) = res_sent st
  end.
Proof.
  assert (Hrest : replies (get (req_body req) "id")
            (lift (destructurable (req_body req)) ;;
             if is_str (get (req_body req) "method") "initialize"
             then send_json 200
                    (result_envelope initialize_result (get (req_body req) "id"))
             else if is_str (get (req_body req) "method") "tools/list"
             then send_json 200
                    (result_envelope tools_list_result (get (req_body req) "id"))
             else if is_str (get (req_body req) "method") "tools/call"
             then tools_call eng env net (get (req_body req) "params")
                    (get (req_body req) "id")
             else
               shown <- lift (to_string (get (req_body req) "method")) ;;
               throw (Error ("Unknown method: " ++ shown)%string))).
  { apply replies_bind; [auto with silent | intros _].
    destruct (is_str _ "initialize"); [apply replies_send |].
    destruct (is_str _ "tools/list"); [apply replies_send |].
    destruct (is_str _ "tools/call"); [apply replies_tools_call |].
    apply replies_bind; [auto with silent | intros shown].
    apply replies_throw. }
  unfold post_try, minted.
  destruct (negb (truthy (req_header req "mcp-session-id"))).
  - rewrite (bind_ok (set_header "Mcp-Session-Id" uuid) _ st _ tt eq_refl).
    match goal with
    | |- context [snd (?c ?s)] => destruct (Hrest s) as [Hh Hs]
    end.
    split; [exact Hh | exact Hs].
  - rewrite (bind_ok (ret tt) _ st st tt eq_refl).
    destruct (Hrest st) as [Hh Hs]. split; [exact Hh | exact Hs].
Qed.

(** *** A POST is the [try] and its [catch], after the CORS headers *)

Lemma handler_post (uuid : string) (req : request) :
  req_method req = "POST"%string ->
  handler eng env net uuid req initial
  = try_catch (post_try eng env net uuid req) (post_catch eng req)
      (snd (cors initial)).
Proof. intros H. unfold handler. rewrite H. reflexivity. Qed.

Lemma post_outcome (uuid : string) (req : request) :
  req_method req = "POST"%string ->
  fst (handler eng env net uuid req initial) = inr tt /\
  match fst (post_try eng env net uuid req (snd (cors initial))) with
  | inr _ => exists r,
      res_sent (snd (handler eng env net uuid req initial))
      = [(200%Z, Json (result_envelope r (get (req_body req) "id")))]
  | inl e =>
      res_sent (snd (handler eng env net uuid req initial))
      = [(200%Z, Json (error_envelope (Str (exn_message eng e))
                         (or_else (opt_get (req_body req) "id") Null)))]
  end.
Proof.
  intros H. rewrite (handler_post uuid req H).
  destruct (post_try_spec uuid req (snd (cors initial))) as [_ Hs].
  unfold try_catch.
  destruct (post_try eng env net uuid req (snd (cors initial))) as [[e | []] st1];
    simpl in *.
  - split; [reflexivity |]. rewrite Hs. reflexivity.
  - split; [reflexivity | exact Hs].
Qed.

Lemma handler_post_trace (uuid : string) (req : request) :
  req_method req = "POST"%string ->
  trace (snd (handler eng env net uuid req initial))
  = trace (snd (post_try eng env net uuid req (snd (cors initial)))).
Proof.
  intros H. rewrite (handler_post uuid req H). unfold try_catch.
  destruct (post_try eng env net uuid req (snd (cors initial))) as [[e | a] st1];
    reflexivity.
Qed.


(** *** Where a [tools/call] goes *)

Lemma at_session_trace (uuid : string) (req : request) (st : state) :
  trace (at_session uuid req st) = trace st.
Proof.
  unfold at_session.
  destruct (negb (truthy (req_header req "mcp-session-id"))); reflexivity.
Qed.

Lemma at_session_sent (uuid : string) (req : request) (st : state) :
  res_sent (at_session uuid req st) = res_sent st.
Proof.
  unfold at_session.
  destruct (negb (truthy (req_header req "mcp-session-id"))); reflexivity.
Qed.

Lemma post_try_tools_call (uuid : string) (req : request) (st : state) :
  get (req_body req) "method" = Str "tools/call" ->
  post_try eng env net uuid req st
  = tools_call eng env net (get (req_body req) "params")
      (get (req_body req) "id") (at_session uuid req st).
Proof.
  intros Hm. unfold post_try, at_session.
  pose proof (get_str_object _ _ _ Hm) as Hb.
  rewrite Hm. unfold destructurable. rewrite Hb.
  destruct (negb (truthy (req_header req "mcp-session-id"))); reflexivity.
Qed.

Lemma tools_call_deploy_vercel :
  dispatches eng env net (Str "deploy-vercel") (deploy_vercel eng env net).
Proof.
  intros params id st Hp Hn. unfold tools_call, destructurable.
  rewrite Hp, Hn. reflexivity.
Qed.

Lemma tools_call_deploy_render :
  dispatches eng env net (Str "deploy-render") (deploy_render eng env net).
Proof.
  intros params id st Hp Hn. unfold tools_call, destructurable.
  rewrite Hp, Hn. reflexivity.
Qed.

Lemma tools_call_unknown (name : value) :
  is_str name "deploy-vercel" = false ->
  is_str name "deploy-render" = false ->
  unknown_tool eng env net name.
Proof.
  intros Hv Hr params id st Hp Hn. unfold tools_call, destructurable.
  rewrite Hp, Hn, Hv, Hr. unfold bind, lift.
  destruct (to_string name); reflexivity.
Qed.

(** A [tools/call] for a name that is neither tool is answered as unknown. *)
Lemma unknown_tool_reply (uuid : string) (req : request) (name : string) :
  req_method req = "POST"%string ->
  get (req_body req) "method" = Str "tools/call" ->
  get (get (req_body req) "params") "name" = Str name ->
  name <> "deploy-vercel"%string -> name <> "deploy-render"%string ->
  trace (snd (handler eng env net uuid req initial)) = [] /\
  res_sent (snd (handler eng env net uuid req initial))
  = [(200%Z, Json (error_envelope (Str ("Unknown tool: " ++ name)%string)
                     (or_else (opt_get (req_body req) "id") Null)))].
Proof.
  intros Hpost Hm Hn Hv Hr.
  assert (Hrun : post_try eng env net uuid req (snd (cors initial))
                 = (raise (Error ("Unknown tool: " ++ name)%string),
                    at_session uuid req (snd (cors initial)))).
  { rewrite (post_try_tools_call uuid req _ Hm).
    apply String.eqb_neq in Hv, Hr.
    rewrite (tools_call_unknown (Str name) Hv Hr
               _ _ _ (get_str_object _ _ _ Hn) Hn).
    reflexivity. }
  split.
  - rewrite (handler_post_trace uuid req Hpost), Hrun. apply at_session_trace.
  - destruct (post_outcome uuid req Hpost) as [_ Hout].
    rewrite Hrun in Hout. exact Hout.
Qed.

(** What a dispatched [tools/call] lets out is what its tool lets out. *)
Lemma tool_call_trace (uuid : string) (req : request)
    (tool : value -> value -> M unit) :
  req_method req = "POST"%string ->
  get (req_body req) "method" = Str "tools/call" ->
  nullish (get (req_body req) "params") = false ->
  dispatches eng env net (get (get (req_body req) "params") "name") tool ->
  trace (snd (handler eng env net uuid req initial))
  = trace (snd (tool (get (get (req_body req) "params") "arguments")
                  (get (req_body req) "id")
                  (at_session uuid req (snd (cors initial))))).
Proof.
  intros Hpost Hm Hp Hd.
  rewrite (handler_post_trace uuid req Hpost).
  rewrite (post_try_tools_call uuid req _ Hm).
  rewrite (Hd _ _ _ Hp eq_refl). reflexivity.
Qed.

(** *** A missing token stops a tool before it reaches its client *)

Lemma deploy_vercel_unset (args id : value) (st : state) :
  unset (VERCEL_TOKEN env) ->
  deploy_vercel eng env net args id st
  = (if nullish args then raise (TypeError CannotDestructure)
     else raise (Error (token_message VercelToken)), st).
Proof.
  intros H. unfold deploy_vercel, bind, lift, destructurable.
  destruct (nullish args); simpl; [reflexivity |].
  rewrite (require_token_unset _ _ H). reflexivity.
Qed.

Lemma deploy_render_unset (args id : value) (st : state) :
  unset (RENDER_TOKEN env) ->
  deploy_render eng env net args id st
  = (if nullish args then raise (TypeError CannotDestructure)
     else raise (Error (token_message RenderToken)), st).
Proof.
  intros H. unfold deploy_render, bind, lift, destructurable.
  destruct (nullish args); simpl; [reflexivity |].
  rewrite (require_token_unset _ _ H). reflexivity.
Qed.

(** *** With its token, a tool reaches its client whatever the arguments *)

Lemma deploy_vercel_emits (args id : value) (tok : string) :
  nullish args = false ->
  VERCEL_TOKEN env = Some tok -> tok <> ""%string ->
  emits
    [Invoked (CreateDeployment (get args "projectName")
                (if truthy (get args "gitRepo")
                 then Obj [("type"%string, Str "github");
                           ("repo"%string, get args "gitRepo");
                           ("ref"%string,
                            match get args "branch" with
                            | Undefined => Str "main"
                            | b => b
                            end)]
                 else Undefined));
     Requested (create_request tok (get args "projectName")
                  (if truthy (get args "gitRepo")
                   then Obj [("type"%string, Str "github");
                             ("repo"%string, get args "gitRepo");
                             ("ref"%string,
                              match get args "branch" with
                              | Undefined => Str "main"
                              | b => b
                              end)]
                   else Undefined))]
    (deploy_vercel eng env net args id).
Proof.
  intros Hargs Htok Hne st. unfold deploy_vercel.
  rewrite (bind_ok _ _ st st tt)
    by (unfold lift, destructurable; rewrite Hargs; reflexivity).
  rewrite (bind_ok _ _ st st tok)
    by (unfold lift; rewrite Htok, (require_token_set _ _ Hne); reflexivity).
  apply emits_bind; [apply emits_createDeployment | intros deployment].
  apply emits_offline. auto with offline.
Qed.

Lemma render_tail_emits (tok : string) (sid id : value) :
  emits (trigger_events tok sid) (render_tail eng net tok sid id).
Proof.
  unfold render_tail.
  apply emits_bind; [apply emits_triggerDeployment | intros d].
  apply emits_offline. auto with offline.
Qed.

Lemma deploy_render_direct (args id : value) (tok : string) :
  nullish args = false ->
  RENDER_TOKEN env = Some tok -> tok <> ""%string ->
  negb (truthy (get args "serviceId")) && truthy (get args "serviceName") = false ->
  emits (trigger_events tok (get args "serviceId"))
    (deploy_render eng env net args id).
Proof.
  intros Hargs Htok Hne Hby st. unfold deploy_render.
  rewrite (bind_ok _ _ st st tt)
    by (unfold lift, destructurable; rewrite Hargs; reflexivity).
  rewrite (bind_ok _ _ st st tok)
    by (unfold lift; rewrite Htok, (require_token_set _ _ Hne); reflexivity).
  rewrite Hby.
  rewrite (bind_ok _ _ st st (get args "serviceId") eq_refl).
  apply render_tail_emits.
Qed.

(** *** [deploy-render] by name: one listing, then the first match *)

Lemma deploy_render_by_name (args id : value) (st : state)
    (tok name : string) (services : list value) :
  truthy (get args "serviceId") = false ->
  get args "serviceName" = Str name -> name <> ""%string ->
  RENDER_TOKEN env = Some tok -> tok <> ""%string ->
  net (trace st ++ [Invoked GetServices]) (services_request tok)
    = Replied (Arr services) ->
  Forall (fun s => nullish s = false) services ->
  deploy_render eng env net args id st
  = match List.find (name_is name) services with
    | Some s =>
        render_tail eng net tok (get s "id") id
          (went_out st [Invoked GetServices; Requested (services_request tok)])
    | None =>
        (raise (Error ("Service " ++ dquote ++ name ++ dquote
                       ++ " not found")%string),
         went_out st [Invoked GetServices; Requested (services_request tok)])
    end.
Proof.
  intros Hid Hname Hne Htok Htne Hnet Hall.
  unfold deploy_render.
  rewrite (bind_ok _ _ st st tt)
    by (unfold lift, destructurable;
        rewrite (get_str_object _ _ _ Hname); reflexivity).
  rewrite (bind_ok _ _ st st tok)
    by (unfold lift; rewrite Htok, (require_token_set _ _ Htne); reflexivity).
  rewrite Hid, Hname, (truthy_str _ Hne). simpl negb. simpl andb. cbv iota.
  set (st1 := went_out st [Invoked GetServices; Requested (services_request tok)]).
  destruct (List.find (name_is name) services) as [s |] eqn:Hf.
  - destruct (name_is_truthy _ _ (proj2 (find_some _ _ Hf))) as [Ht Hn].
    rewrite (bind_ok _ _ st st1 (get s "id")); [reflexivity |].
    rewrite (bind_ok _ _ st st1 (Arr services)
               (getServices_replied eng net tok _ _ Hnet)).
    rewrite (bind_ok _ _ st1 st1 s)
      by (unfold lift; rewrite (find_service_items _ _ Hall), Hf; reflexivity).
    rewrite Ht. unfold lift, member. rewrite Hn. reflexivity.
  - apply bind_raise.
    rewrite (bind_ok _ _ st st1 (Arr services)
               (getServices_replied eng net tok _ _ Hnet)).
    rewrite (bind_ok _ _ st1 st1 Undefined)
      by (unfold lift; rewrite (find_service_items _ _ Hall), Hf; reflexivity).
    reflexivity.
Qed.

End WithWorld.
End ApiFacts.

(** ** The callbacks of [server.ts] *)

Module ServerFacts.
Import Js Host Clients Props Logic ClientFacts.
Local Open Scope js_scope.
Local Open Scope list_scope.

Section WithWorld.
Variable eng : engine.
Variable env : process_env.
Variable net : network.

Lemma text_content_is_text (text : string) :
  is_text_content (Server.text_content text).
Proof. exists text. reflexivity. Qed.

(** Every callback returns a text content: what its [try] throws, its
    own [catch] turns into a text. *)
Lemma run_returns (i : Server.invocation) (st : state) :
  exists content st',
    Server.run eng env net i st = (ok content, st') /\ is_text_content content.
Proof.
  destruct i as [projectName gitRepo branch | serviceId serviceName | p id | p];
    simpl; unfold Server.deploy_vercel, Server.deploy_render,
             Server.check_deployment_status, Server.list_services;
    apply try_catch_returns; try (intros e; apply text_content_is_text).
  - repeat (apply yields_bind; intros ?).
    apply yields_ret, text_content_is_text.
  - repeat (apply yields_bind; intros ?).
    apply yields_ret, text_content_is_text.
  - destruct p; repeat (apply yields_bind; intros ?);
      apply yields_ret, text_content_is_text.
  - destruct p; repeat (apply yields_bind; intros ?);
      apply yields_ret, text_content_is_text.
Qed.

(** Without its token a callback returns the failure text at once. *)
Lemma run_unset (i : Server.invocation) (t : token) (st : state) :
  server_tool_token i = Some t ->
  unset (env_token env t) ->
  Server.run eng env net i st
  = (ok (Server.text_content (failure_prefix i ++ token_message t)%string), st).
Proof.
  intros Ht Hu.
  destruct i as [pn gr br | sid sn | [|] id | [|]]; simpl in Ht;
    try discriminate Ht;
    injection Ht as <-; simpl in Hu; simpl;
    unfold Server.deploy_vercel, Server.deploy_render,
      Server.check_deployment_status, Server.list_services,
      try_catch, bind, lift;
    rewrite (ApiFacts.require_token_unset _ _ Hu); reflexivity.
Qed.

Lemma server_find_service_items (services : list value) (n : string) :
  Forall (fun s => nullish s = false) services ->
  Server.find_service (Arr services) (Str n)
  = ok (match List.find (name_is n) services with
        | Some s => s
        | None => Undefined
        end).
Proof.
  unfold Server.find_service. simpl Js.find.
  induction 1 as [| s rest Hs _ IH]; simpl.
  - reflexivity.
  - unfold member. rewrite Hs. simpl. fold (name_is n s).
    destruct (name_is n s); [reflexivity | exact IH].
Qed.

(** X15: [deploy-render] of [server.ts] takes the by-name branch when its
    [serviceId] is the empty string (its schema wants the field): one
    listing, then the first service of that name, or the failure text. *)
Lemma server_deploy_render_by_name (st : state) (tok name : string)
    (services : list value) :
  name <> ""%string ->
  RENDER_TOKEN env = Some tok -> tok <> ""%string ->
  net (trace st ++ [Invoked GetServices]) (services_request tok)
    = Replied (Arr services) ->
  Forall (fun s => nullish s = false) services ->
  match List.find (name_is name) services with
  | Some s =>
      trace (snd (Server.deploy_render eng env net "" (Some name) st))
      = trace st
        ++ [Invoked GetServices; Requested (services_request tok)]
        ++ trigger_events tok (get s "id")
  | None =>
      Server.deploy_render eng env net "" (Some name) st
      = (ok (Server.text_content
               ("❌ Render deployment failed: Service " ++ dquote ++ name
                ++ dquote ++ " not found")%string),
         went_out st [Invoked GetServices; Requested (services_request tok)])
  end.
Proof.
  intros Hne Htok Htne Hnet Hall.
  set (st1 := went_out st [Invoked GetServices; Requested (services_request tok)]).
  unfold Server.deploy_render, try_catch.
  rewrite (bind_ok _ _ st st tok)
    by (unfold lift; rewrite Htok, (ApiFacts.require_token_set _ _ Htne);
        reflexivity).
  simpl Server.optional. rewrite (ApiFacts.truthy_str _ Hne).
  simpl negb. simpl andb. cbv iota.
  destruct (List.find (name_is name) services) as [s |] eqn:Hf.
  - destruct (ApiFacts.name_is_truthy _ _ (proj2 (find_some _ _ Hf))) as [Ht Hn].
    rewrite (bind_ok _ _ st st1 (get s "id")).
    + match goal with
      | |- trace (snd (let (_, _) := ?c st1 in _)) = _ =>
          assert (Hc : trace (snd (c st1))
                       = trace st1 ++ trigger_events tok (get s "id"))
      end.
      { apply emits_bind; [apply emits_triggerDeployment | intros d].
        apply emits_offline. auto with offline. }
      match type of Hc with
      | trace (snd (?c st1)) = _ => destruct (c st1) as [[e | a] st2]
      end; simpl in *; rewrite Hc; unfold st1, went_out; simpl;
        rewrite <- app_assoc; reflexivity.
    + rewrite (bind_ok _ _ st st1 (Arr services)
                 (getServices_replied eng net tok _ _ Hnet)).
      rewrite (bind_ok _ _ st1 st1 s)
        by (unfold lift; rewrite (server_find_service_items _ _ Hall), Hf;
            reflexivity).
      rewrite Ht. unfold lift, member. rewrite Hn. reflexivity.
  - rewrite (bind_raise _ _ st st1
               (Error ("Service " ++ dquote ++ name ++ dquote
                       ++ " not found")%string)).
    + reflexivity.
    + rewrite (bind_ok _ _ st st1 (Arr services)
                 (getServices_replied eng net tok _ _ Hnet)).
      rewrite (bind_ok _ _ st1 st1 Undefined)
        by (unfold lift; rewrite (server_find_service_items _ _ Hall), Hf;
            reflexivity).
      reflexivity.
Qed.

End WithWorld.
End ServerFacts.

(** * The claims of the specification *)

Import Js Host Clients Api Props JsFacts Logic ClientFacts ApiFacts ServerFacts Fixtures.
Local Open Scope list_scope.


(** An error reply keeps every identifier that is truthy: a number other
    than [0], a string other than the empty one. *)
Lemma error_reply_keeps_truthy_id (body : value) :
  truthy (get body "id") = true ->
  or_else (opt_get body "id") Null = get body "id".
Proof.
  unfold or_else, opt_get.
  destruct body; simpl; intros H; try discriminate.
  rewrite H. reflexivity.
Qed.

(** C1: every POST is answered by one envelope with exactly one of
    [result] and [error] whose [id] is the [id] of the request.  The
    code misses it for the identifier [0]: a [tools/call] numbered [0]
    that fails for want of a token is answered with [id: null]. *)
Theorem failed_call_numbered_zero_is_answered_with_null
    (eng : engine) (net : network) (uuid : string) :
  get (req_body (post [] (tool_call "deploy-vercel"
                            (Obj [("projectName"%string, Str "demo")]) (Num 0))))
    "id" = Num 0 /\
  res_sent (snd (handler eng without_tokens net uuid
                   (post [] (tool_call "deploy-vercel"
                               (Obj [("projectName"%string, Str "demo")]) (Num 0)))
                   initial))
  = [(200%Z, Json (error_envelope
                     (Str "VERCEL_TOKEN environment variable is required")
                     Null))].
Proof. split; reflexivity. Qed.

(** On a request whose body has decoded, whatever the [try] of a POST
    throws is caught: the handler returns, having sent with status 200
    one envelope whose [error] is [{ code, message }] with the message
    of what was thrown; a decoded body that is no object is answered so
    with [id: null]. *)
Theorem post_failures_become_error_envelopes
    (eng : engine) (env : process_env) (net : network) (uuid : string)
    (req : request) :
  req_method req = "POST"%string ->
  fst (handler eng env net uuid req initial) = inr tt /\
  (forall e,
     fst (post_try eng env net uuid req (snd (cors initial))) = inl e ->
     res_sent (snd (handler eng env net uuid req initial))
     = [(200%Z, Json (error_envelope (Str (exn_message eng e))
                        (or_else (opt_get (req_body req) "id") Null)))]) /\
  (is_object (req_body req) = false ->
   exists message,
     res_sent (snd (handler eng env net uuid req initial))
     = [(200%Z, Json (error_envelope (Str message) Null))]).
Proof.
  intros Hpost.
  destruct (post_outcome eng env net uuid req Hpost) as [Hret Hout].
  split; [exact Hret |]. split.
  - intros e He. rewrite He in Hout. exact Hout.
  - intros Hobj.
    assert (Hthrows : exists e,
               fst (post_try eng env net uuid req (snd (cors initial))) = inl e).
    { unfold post_try.
      destruct (negb (truthy (req_header req "mcp-session-id")));
        destruct (req_body req); try discriminate Hobj; eexists; reflexivity. }
    destruct Hthrows as [e He]. rewrite He in Hout.
    exists (exn_message eng e). rewrite Hout.
    destruct (req_body req); try discriminate Hobj; reflexivity.
Qed.

Lemma post_failures_become_error_envelopes_witness :
  fst (handler plain_engine with_tokens provider "u-1" (post [] Undefined) initial)
  = inr tt /\
  exists message,
    res_sent (snd (handler plain_engine with_tokens provider "u-1" (post [] Undefined)
                     initial))
    = [(200%Z, Json (error_envelope (Str message) Null))].
Proof.
  destruct (post_failures_become_error_envelopes plain_engine with_tokens provider "u-1"
              (post [] Undefined) eq_refl) as [Hret [_ Hnull]].
  split; [exact Hret | exact (Hnull eq_refl)].
Defined.

(** On a body that decodes, the handler on the wire is the handler on
    the decoded request. *)
Lemma wire_handler_decoded
    (eng : engine) (env : process_env) (net : network) (uuid : string)
    (req : Wire.request) (v : value) (st : state) :
  Wire.req_body req = Wire.Decoded v ->
  Wire.handler eng env net uuid req st
  = handler eng env net uuid (Wire.decoded req v) st.
Proof.
  intros Hbody.
  unfold Wire.handler, handler, Wire.post_try, post_try, Wire.post_catch,
    post_catch, Wire.read_body, Wire.decoded, Wire.req_header, req_header.
  rewrite Hbody. reflexivity.
Qed.

Lemma wire_handler_decoded_witness :
  res_sent (snd (Wire.handler plain_engine with_tokens provider "u-1"
                   {| Wire.req_method := "POST"; Wire.req_headers := [];
                      Wire.req_body := Wire.Decoded Undefined |} initial))
  = [(200%Z, Json (error_envelope
                     (Str "Cannot destructure property of undefined") Null))].
Proof.
  rewrite (wire_handler_decoded plain_engine with_tokens provider "u-1"
             {| Wire.req_method := "POST"; Wire.req_headers := [];
                Wire.req_body := Wire.Decoded Undefined |} Undefined initial
             eq_refl).
  reflexivity.
Defined.

(** C2: every failure raised while a POST is processed is caught and
    rendered as an error envelope with status 200, no exception escapes,
    and a body that cannot be parsed yields an error envelope with
    [id: null].  The code misses the last: when the body does not
    decode, the read of [req.body] in the [try] throws, and the [catch],
    building the envelope, reads [req.body] for its [id] and throws
    again: the exception leaves the handler and nothing is sent. *)
Theorem malformed_body_escapes_the_catch
    (eng : engine) (env : process_env) (net : network) (uuid : string)
    (headers : list (string * string)) (e : exn) :
  fst (Wire.handler eng env net uuid
         {| Wire.req_method := "POST"; Wire.req_headers := headers;
            Wire.req_body := Wire.Malformed e |} initial) = inl e /\
  res_sent (snd (Wire.handler eng env net uuid
                   {| Wire.req_method := "POST"; Wire.req_headers := headers;
                      Wire.req_body := Wire.Malformed e |} initial)) = [] /\
  trace (snd (Wire.handler eng env net uuid
                {| Wire.req_method := "POST"; Wire.req_headers := headers;
                   Wire.req_body := Wire.Malformed e |} initial)) = [].
Proof.
  unfold Wire.handler, Wire.post_try, Wire.post_catch, Wire.read_body.
  cbn [Wire.req_method Wire.req_body].
  destruct (negb (truthy
                    (Wire.req_header
                       {| Wire.req_method := "POST";
                          Wire.req_headers := headers;
                          Wire.req_body := Wire.Malformed e |}
                       "mcp-session-id")));
    repeat split.
Qed.

(** C3: [deploy-render] called with a [serviceName] and no [serviceId],
    the token being set and the listing answered with the services:
    when a service of exactly that name is listed, the clients are
    called twice, [getServices] and then [triggerDeployment] on the
    first such service; when none is, [getServices] alone is called,
    one request goes out, and the reply is the error
    [Service "<name>" not found]. *)
Theorem deploy_render_by_service_name
    (eng : engine) (env : process_env) (net : network) (uuid : string)
    (req : request) (tok name : string) (services : list value) :
  req_method req = "POST"%string ->
  get (req_body req) "method" = Str "tools/call" ->
  get (get (req_body req) "params") "name" = Str "deploy-render" ->
  get (get (get (req_body req) "params") "arguments") "serviceId" = Undefined ->
  get (get (get (req_body req) "params") "arguments") "serviceName" = Str name ->
  name <> ""%string ->
  RENDER_TOKEN env = Some tok -> tok <> ""%string ->
  net [Invoked GetServices] (services_request tok) = Replied (Arr services) ->
  Forall (fun s => nullish s = false) services ->
  match List.find (name_is name) services with
  | Some s =>
      api_calls (trace (snd (handler eng env net uuid req initial)))
      = [GetServices; TriggerDeployment (get s "id")] /\
      trace (snd (handler eng env net uuid req initial))
      = [Invoked GetServices; Requested (services_request tok)]
        ++ trigger_events tok (get s "id")
  | None =>
      api_calls (trace (snd (handler eng env net uuid req initial)))
      = [GetServices] /\
      http_requests (trace (snd (handler eng env net uuid req initial)))
      = [services_request tok] /\
      res_sent (snd (handler eng env net uuid req initial))
      = [(200%Z, Json (error_envelope
                         (Str ("Service " ++ dquote ++ name ++ dquote
                               ++ " not found")%string)
                         (or_else (opt_get (req_body req) "id") Null)))]
  end.
Proof.
  intros Hpost Hm Hn Hid Hname Hne Htok Htne Hnet Hall.
  pose proof (post_outcome eng env net uuid req Hpost) as [_ Hout].
  rewrite (handler_post_trace eng env net uuid req Hpost).
  rewrite (post_try_tools_call eng env net uuid req _ Hm) in *.
  rewrite (tools_call_deploy_render eng env net _ _ _
             (get_str_object _ _ _ Hn) Hn) in *.
  assert (Hid' : truthy (get (get (get (req_body req) "params") "arguments")
                           "serviceId") = false) by (rewrite Hid; reflexivity).
  assert (Hnet' : net (trace (at_session uuid req (snd (cors initial)))
                       ++ [Invoked GetServices]) (services_request tok)
                  = Replied (Arr services))
    by (rewrite at_session_trace; exact Hnet).
  rewrite (deploy_render_by_name eng env net _ _ _ tok name services
             Hid' Hname Hne Htok Htne Hnet' Hall) in *.
  destruct (List.find (name_is name) services) as [s |].
  - rewrite render_tail_emits. unfold went_out. simpl trace.
    rewrite at_session_trace, api_calls_app, trigger_events_calls.
    split; reflexivity.
  - simpl in Hout. simpl trace. rewrite at_session_trace. simpl.
    repeat split. exact Hout.
Qed.

Lemma deploy_render_by_service_name_witness :
  api_calls (trace (snd (handler plain_engine with_tokens provider "u-1"
                           (post [] (tool_call "deploy-render"
                                       (Obj [("serviceName"%string, Str "api")])
                                       (Num 1)))
                           initial)))
  = [GetServices; TriggerDeployment (Str "srv-1")].
Proof.
  apply (deploy_render_by_service_name plain_engine with_tokens provider "u-1"
           (post [] (tool_call "deploy-render"
                       (Obj [("serviceName"%string, Str "api")]) (Num 1)))
           "render-token" "api"
           [Obj [("id"%string, Str "srv-1"); ("name"%string, Str "api");
                 ("type"%string, Str "web_service")]]);
    try reflexivity; try discriminate.
  repeat constructor.
Defined.

(** C4: a tool called while [process.env] lacks its token lets nothing
    out, and the failure it reports is the missing token: in
    [api/mcp.ts] the error of the reply (once [arguments] is there to be
    read), in [server.ts] the text the callback returns. *)
Theorem missing_token_stops_before_provider
    (eng : engine) (env : process_env) (net : network) (uuid : string) :
  (forall (req : request) (name : string) (t : token),
     req_method req = "POST"%string ->
     get (req_body req) "method" = Str "tools/call" ->
     get (get (req_body req) "params") "name" = Str name ->
     api_tool_token name = Some t ->
     unset (env_token env t) ->
     trace (snd (handler eng env net uuid req initial)) = [] /\
     (nullish (get (get (req_body req) "params") "arguments") = false ->
      res_sent (snd (handler eng env net uuid req initial))
      = [(200%Z, Json (error_envelope (Str (token_message t))
                         (or_else (opt_get (req_body req) "id") Null)))])) /\
  (forall (i : Server.invocation) (t : token) (st : state),
     server_tool_token i = Some t ->
     unset (env_token env t) ->
     Server.run eng env net i st
     = (ok (Server.text_content (failure_prefix i ++ token_message t)%string),
        st)).
Proof.
  split.
  - intros req name t Hpost Hm Hn Ht Hu.
    rewrite (handler_post eng env net uuid req Hpost). unfold try_catch.
    rewrite (post_try_tools_call eng env net uuid req _ Hm).
    pose proof (get_str_object _ _ _ Hn) as Hp.
    destruct (api_tool_token_inv _ _ Ht) as [[-> ->] | [-> ->]]; simpl in Hu.
    + rewrite (tools_call_deploy_vercel eng env net _ _ _ Hp Hn),
        (deploy_vercel_unset eng env net _ _ _ Hu).
      destruct (nullish (get (get (req_body req) "params") "arguments"));
        simpl; rewrite at_session_trace, at_session_sent;
        (split; [reflexivity | intros; try discriminate; reflexivity]).
    + rewrite (tools_call_deploy_render eng env net _ _ _ Hp Hn),
        (deploy_render_unset eng env net _ _ _ Hu).
      destruct (nullish (get (get (req_body req) "params") "arguments"));
        simpl; rewrite at_session_trace, at_session_sent;
        (split; [reflexivity | intros; try discriminate; reflexivity]).
  - intros i t st Ht Hu. apply run_unset; assumption.
Qed.

Lemma missing_token_stops_before_provider_witness :
  trace (snd (handler plain_engine without_tokens provider "u-1"
                (post [] (tool_call "deploy-render"
                            (Obj [("serviceId"%string, Str "srv-1")]) (Num 7)))
                initial)) = [] /\
  res_sent (snd (handler plain_engine without_tokens provider "u-1"
                   (post [] (tool_call "deploy-render"
                               (Obj [("serviceId"%string, Str "srv-1")]) (Num 7)))
                   initial))
  = [(200%Z, Json (error_envelope
                     (Str "RENDER_TOKEN environment variable is required")
                     (Num 7)))] /\
  Server.run plain_engine without_tokens provider
    (Server.CheckDeploymentStatus Server.Vercel "dep_1") initial
  = (ok (Server.text_content
           "❌ Failed to check deployment status: VERCEL_TOKEN environment variable is required"),
     initial).
Proof.
  destruct (missing_token_stops_before_provider plain_engine without_tokens provider "u-1")
    as [Hapi Hserver].
  destruct (Hapi (post [] (tool_call "deploy-render"
                             (Obj [("serviceId"%string, Str "srv-1")]) (Num 7)))
              "deploy-render"%string RenderToken
              eq_refl eq_refl eq_refl eq_refl (or_introl eq_refl))
    as [Htrace Hsent].
  split; [exact Htrace |]. split; [exact (Hsent eq_refl) |].
  exact (Hserver (Server.CheckDeploymentStatus Server.Vercel "dep_1")
           VercelToken initial eq_refl (or_introl eq_refl)).
Defined.

(** C5: a [tools/call] fails for a missing required argument before any
    provider call.  The code has no such check: with the tokens set,
    [deploy-vercel] without [projectName] calls [createDeployment] and
    posts a deployment without a name, and [deploy-render] with neither
    [serviceId] nor [serviceName] calls [triggerDeployment] and posts to
    [/services/undefined/deploys]. *)
Theorem tools_without_required_arguments_reach_provider
    (eng : engine) (net : network) (uuid : string) :
  trace (snd (handler eng with_tokens net uuid
                (post [] (tool_call "deploy-vercel" (Obj []) (Num 1))) initial))
  = [Invoked (CreateDeployment Undefined Undefined);
     Requested (create_request "vercel-token" Undefined Undefined)] /\
  trace (snd (handler eng with_tokens net uuid
                (post [] (tool_call "deploy-render" (Obj []) (Num 1))) initial))
  = [Invoked (TriggerDeployment Undefined);
     Requested (deploys_request "render-token" "undefined")].
Proof.
  split.
  - rewrite (tool_call_trace eng with_tokens net uuid
               (post [] (tool_call "deploy-vercel" (Obj []) (Num 1)))
               (deploy_vercel eng with_tokens net) eq_refl eq_refl eq_refl
               (tools_call_deploy_vercel eng with_tokens net)).
    rewrite (deploy_vercel_emits eng with_tokens net (Obj []) (Num 1)
               "vercel-token" eq_refl eq_refl ltac:(discriminate)).
    reflexivity.
  - rewrite (tool_call_trace eng with_tokens net uuid
               (post [] (tool_call "deploy-render" (Obj []) (Num 1)))
               (deploy_render eng with_tokens net) eq_refl eq_refl eq_refl
               (tools_call_deploy_render eng with_tokens net)).
    rewrite (deploy_render_direct eng with_tokens net (Obj []) (Num 1)
               "render-token" eq_refl eq_refl ltac:(discriminate) eq_refl).
    reflexivity.
Qed.

(** The default the schema declares for [branch] is applied: a
    [deploy-vercel] with a [gitRepo] and no [branch] deploys [main]. *)
Lemma deploy_vercel_defaults_branch
    (eng : engine) (net : network) (uuid : string) :
  api_calls
    (trace (snd (handler eng with_tokens net uuid
                   (post [] (tool_call "deploy-vercel"
                               (Obj [("projectName"%string, Str "demo");
                                     ("gitRepo"%string, Str "me/demo")])
                               (Num 1)))
                   initial)))
  = [CreateDeployment (Str "demo")
       (Obj [("type"%string, Str "github"); ("repo"%string, Str "me/demo");
             ("ref"%string, Str "main")])].
Proof.
  rewrite (tool_call_trace eng with_tokens net uuid
             (post [] (tool_call "deploy-vercel"
                         (Obj [("projectName"%string, Str "demo");
                               ("gitRepo"%string, Str "me/demo")])
                         (Num 1)))
             (deploy_vercel eng with_tokens net) eq_refl eq_refl eq_refl
             (tools_call_deploy_vercel eng with_tokens net)).
  rewrite (deploy_vercel_emits eng with_tokens net
             (Obj [("projectName"%string, Str "demo");
                   ("gitRepo"%string, Str "me/demo")])
             (Num 1) "vercel-token" eq_refl eq_refl ltac:(discriminate)).
  reflexivity.
Qed.



(** C7: a POST whose method is none of the recognised ones is answered
    by an error envelope for an unknown method that keeps the [id] of
    the request.  The code misses it for the identifier [0]: the reply
    names the unknown method and carries [id: null]. *)
Theorem unknown_method_numbered_zero_is_answered_with_null
    (eng : engine) (env : process_env) (net : network) (uuid : string) :
  get (req_body (post [] (call "resources/list" (Num 0)))) "id" = Num 0 /\
  res_sent (snd (handler eng env net uuid
                   (post [] (call "resources/list" (Num 0))) initial))
  = [(200%Z, Json (error_envelope (Str "Unknown method: resources/list") Null))].
Proof. split; reflexivity. Qed.

(** X2: an unknown method is answered as such, and with its [id] whenever
    that is truthy. *)
Lemma unknown_method_reply
    (eng : engine) (env : process_env) (net : network) (uuid : string)
    (req : request) (method : string) :
  req_method req = "POST"%string ->
  get (req_body req) "method" = Str method ->
  method <> "initialize"%string -> method <> "tools/list"%string ->
  method <> "tools/call"%string ->
  trace (snd (handler eng env net uuid req initial)) = [] /\
  res_sent (snd (handler eng env net uuid req initial))
  = [(200%Z, Json (error_envelope (Str ("Unknown method: " ++ method)%string)
                     (or_else (opt_get (req_body req) "id") Null)))].
Proof.
  intros Hpost Hm H1 H2 H3.
  assert (Hrun : post_try eng env net uuid req (snd (cors initial))
                 = (raise (Error ("Unknown method: " ++ method)%string),
                    at_session uuid req (snd (cors initial)))).
  { unfold post_try, at_session, destructurable.
    rewrite (get_str_object _ _ _ Hm), Hm. unfold is_str. simpl strict_eq.
    apply String.eqb_neq in H1, H2, H3. rewrite H1, H2, H3.
    destruct (negb (truthy (req_header req "mcp-session-id"))); reflexivity. }
  split.
  - rewrite (handler_post_trace eng env net uuid req Hpost), Hrun.
    apply at_session_trace.
  - destruct (post_outcome eng env net uuid req Hpost) as [_ Hout].
    rewrite Hrun in Hout. exact Hout.
Qed.

(** C8, as the specification words it, fails on [api/mcp.ts]: a
    [tools/call] naming [check-deployment-status], with the arguments
    the tool asks for, is thrown out as an unknown tool, and nothing
    goes to a provider. *)
Lemma status_tool_is_unknown_to_the_http_handler :
  res_sent (snd (handler plain_engine with_tokens provider "u-1"
                   (post [] (tool_call "check-deployment-status"
                               (Obj [("platform"%string, Str "vercel");
                                     ("id"%string, Str "dep_1")])
                               (Num 1)))
                   initial))
  = [(200%Z, Json (error_envelope
                     (Str "Unknown tool: check-deployment-status") (Num 1)))] /\
  trace (snd (handler plain_engine with_tokens provider "u-1"
                (post [] (tool_call "check-deployment-status"
                            (Obj [("platform"%string, Str "vercel");
                                  ("id"%string, Str "dep_1")])
                            (Num 1)))
                initial)) = [].
Proof. split; reflexivity. Qed.

(** C8, amended: the two entry points declare different tools.  The
    handler of [api/mcp.ts] runs [deploy-vercel] and [deploy-render] and
    answers a [tools/call] naming [check-deployment-status] or
    [list-services] with the error [Unknown tool: <name>], letting
    nothing out; [server.ts] registers all four names, and each of its
    callbacks returns a text content. *)
Theorem tools_of_each_entry_point
    (eng : engine) (env : process_env) (net : network) (uuid : string) :
  (forall (req : request) (name : string),
     req_method req = "POST"%string ->
     get (req_body req) "method" = Str "tools/call" ->
     get (get (req_body req) "params") "name" = Str name ->
     In name ["check-deployment-status"%string; "list-services"%string] ->
     trace (snd (handler eng env net uuid req initial)) = [] /\
     res_sent (snd (handler eng env net uuid req initial))
     = [(200%Z, Json (error_envelope (Str ("Unknown tool: " ++ name)%string)
                        (or_else (opt_get (req_body req) "id") Null)))]) /\
  (accepted eng env net (Str "deploy-vercel") /\
   accepted eng env net (Str "deploy-render")) /\
  (forall i : Server.invocation,
     In (Server.tool_name i) Server.registered_tools) /\
  (forall (i : Server.invocation) (st : state),
     exists content st',
       Server.run eng env net i st = (ok content, st') /\
       is_text_content content).
Proof.
  split; [| split; [| split]].
  - intros req name Hpost Hm Hn [<- | [<- | []]];
      apply unknown_tool_reply; try assumption; discriminate.
  - split.
    + left. apply tools_call_deploy_vercel.
    + right. apply tools_call_deploy_render.
  - intros i. destruct i; simpl; auto.
  - intros i st. apply run_returns.
Qed.

Lemma tools_of_each_entry_point_witness :
  res_sent (snd (handler plain_engine with_tokens provider "u-1"
                   (post [] (tool_call "list-services"
                               (Obj [("platform"%string, Str "render")])
                               (Num 4)))
                   initial))
  = [(200%Z, Json (error_envelope (Str "Unknown tool: list-services") (Num 4)))].
Proof.
  destruct (tools_of_each_entry_point plain_engine with_tokens provider "u-1")
    as [Hapi _].
  exact (proj2 (Hapi (post [] (tool_call "list-services"
                                 (Obj [("platform"%string, Str "render")])
                                 (Num 4)))
                  "list-services"%string eq_refl eq_refl eq_refl
                  (or_intror (or_introl eq_refl)))).
Defined.








(** C10: whatever failed, the error of the reply to a POST is
    [{ code: -32000, message }]: the code is the same for every kind of
    failure and only the message tells them apart. *)
Theorem error_code_is_always_minus_32000
    (eng : engine) (env : process_env) (net : network) (uuid : string)
    (req : request) (status : Z) (body : value) :
  req_method req = "POST"%string ->
  In (status, Json body) (res_sent (snd (handler eng env net uuid req initial))) ->
  has_key "error" body = true ->
  exists message,
    get body "error"
    = Obj [("code"%string, Num (-32000)); ("message"%string, Str message)].
Proof.
  intros Hpost Hin Herr.
  destruct (post_outcome eng env net uuid req Hpost) as [_ Hout].
  destruct (fst (post_try eng env net uuid req (snd (cors initial)))) as [e | u].
  - rewrite Hout in Hin. destruct Hin as [[= <- <-] | []].
    eexists. reflexivity.
  - destruct Hout as [r Hr]. rewrite Hr in Hin.
    destruct Hin as [[= <- <-] | []]. discriminate Herr.
Qed.

Lemma error_code_is_always_minus_32000_witness :
  exists message,
    get (error_envelope (Str "Unknown tool: deploy-netlify") (Num 3)) "error"
    = Obj [("code"%string, Num (-32000)); ("message"%string, Str message)].
Proof.
  apply (error_code_is_always_minus_32000 plain_engine with_tokens provider "u-1"
           (post [] (tool_call "deploy-netlify" (Obj []) (Num 3)))
           200%Z
           (error_envelope (Str "Unknown tool: deploy-netlify") (Num 3))).
  - reflexivity.
  - left. reflexivity.
  - reflexivity.
Defined.

(** * Further properties of the code *)

Import Bounds.

(** ** [api/mcp.ts]: every branch of the handler *)


Lemma unknown_method_reply_witness :
  trace (snd (handler plain_engine with_tokens provider "u-1"
                (post [] (call "teardown" (Num 5))) initial)) = [] /\
  res_sent (snd (handler plain_engine with_tokens provider "u-1"
                   (post [] (call "teardown" (Num 5))) initial))
  = [(200%Z, Json (error_envelope (Str "Unknown method: teardown") (Num 5)))].
Proof.
  apply (unknown_method_reply plain_engine with_tokens provider "u-1"
           (post [] (call "teardown" (Num 5))) "teardown");
    try reflexivity; discriminate.
Defined.


(** X4: a request that is no POST reaches no provider and mints no session:
    [OPTIONS] and [DELETE] get an empty 200, [GET] the discovery
    document, whose tools are those of [tools/list], and every other
    method a 405. *)
Theorem requests_other_than_post
    (eng : engine) (env : process_env) (net : network) (uuid : string)
    (req : request) :
  req_method req <> "POST"%string ->
  trace (snd (handler eng env net uuid req initial)) = [] /\
  response_header (snd (handler eng env net uuid req initial))
    "Mcp-Session-Id" = None /\
  res_sent (snd (handler eng env net uuid req initial))
  = [if ((req_method req =? "OPTIONS") || (req_method req =? "DELETE"))%string
     then (200%Z, End)
     else if (req_method req =? "GET")%string
     then (200%Z, Json discovery)
     else (405%Z, Json (Obj [("error"%string, Str "Method not allowed")]))] /\
  get discovery "tools" = Arr (tool_names tools_list_result).
Proof.
  intros Hother. unfold handler.
  destruct (String.eqb_spec (req_method req) "OPTIONS") as [-> | H1];
    [repeat split |].
  destruct (String.eqb_spec (req_method req) "GET") as [-> | H2];
    [repeat split |].
  destruct (String.eqb_spec (req_method req) "DELETE") as [H3 | H3];
    [repeat split |].
  destruct (String.eqb_spec (req_method req) "POST"); [contradiction |].
  repeat split.
Qed.

Lemma requests_other_than_post_witness :
  res_sent (snd (handler plain_engine with_tokens provider "u-1"
                   {| req_method := "PUT"; req_headers := [];
                      req_body := Undefined |} initial))
  = [(405%Z, Json (Obj [("error"%string, Str "Method not allowed")]))].
Proof.
  apply (requests_other_than_post plain_engine with_tokens provider "u-1"
           {| req_method := "PUT"; req_headers := []; req_body := Undefined |}).
  discriminate.
Defined.

(** X5: of the methods of a POST only [tools/call] reaches a provider:
    [initialize], [tools/list], an unknown method, and a body without a
    method let nothing out. *)
Theorem only_tools_call_reaches_a_provider
    (eng : engine) (env : process_env) (net : network) (uuid : string)
    (req : request) :
  req_method req = "POST"%string ->
  is_str (get (req_body req) "method") "tools/call" = false ->
  trace (snd (handler eng env net uuid req initial)) = [].
Proof.
  intros Hpost Hm.
  rewrite (handler_post_trace eng env net uuid req Hpost).
  assert (Hoff : offline (post_try eng env net uuid req)).
  { unfold post_try. rewrite Hm.
    apply offline_bind;
      [destruct (negb (truthy (req_header req "mcp-session-id")));
       auto with offline | intros _].
    apply offline_bind; [auto with offline | intros _].
    destruct (is_str _ "initialize"); [auto with offline |].
    destruct (is_str _ "tools/list"); auto with offline. }
  rewrite Hoff. reflexivity.
Qed.

Lemma only_tools_call_reaches_a_provider_witness :
  trace (snd (handler plain_engine with_tokens provider "u-1"
                (post [] (call "tools/list" (Num 1))) initial)) = [].
Proof.
  apply (only_tools_call_reaches_a_provider plain_engine with_tokens provider
           "u-1" (post [] (call "tools/list" (Num 1))));
    reflexivity.
Defined.

(** ** How much goes out, and to whom *)

Module BoundsFacts.
Import Js Host Clients Api Props Logic Bounds.
Local Open Scope js_scope.
Local Open Scope list_scope.

Lemma at_most_offline {A} (c : M A) : offline c -> at_most 0 c.
Proof. intros H st. rewrite H. lia. Qed.

Lemma at_most_invoked (call : api_call) : at_most 0 (log (Invoked call)).
Proof.
  intros st. simpl. rewrite http_requests_app, length_app. simpl. lia.
Qed.

Lemma at_most_axios (net : network) (r : http_request) :
  at_most 1 (axios net r).
Proof.
  intros st. rewrite (emits_axios net r st), http_requests_app, length_app.
  simpl. lia.
Qed.

Lemma at_most_bind {A B} (n m : nat) (c : M A) (k : A -> M B) :
  at_most n c -> (forall a, at_most m (k a)) -> at_most (n + m) (bind c k).
Proof.
  intros Hc Hk st. unfold bind. specialize (Hc st).
  destruct (c st) as [[e | a] st1]; simpl in *.
  - lia.
  - specialize (Hk a st1). lia.
Qed.

Lemma at_most_try_catch {A} (n m : nat) (c : M A) (h : exn -> M A) :
  at_most n c -> (forall e, at_most m (h e)) -> at_most (n + m) (try_catch c h).
Proof.
  intros Hc Hh st. unfold try_catch. specialize (Hc st).
  destruct (c st) as [[e | a] st1]; simpl in *.
  - specialize (Hh e st1). lia.
  - lia.
Qed.

Lemma at_most_more {A} (n m : nat) (c : M A) :
  n <= m -> at_most n c -> at_most m c.
Proof. intros Hle Hc st. specialize (Hc st). lia. Qed.

Lemma preserves_offline {A} (P : event -> Prop) (c : M A) :
  offline c -> preserves P c.
Proof. intros H st HP. rewrite H. exact HP. Qed.

Lemma preserves_log (P : event -> Prop) (e : event) :
  P e -> preserves P (log e).
Proof.
  intros He st HP. simpl. apply Forall_app. split; [exact HP | auto].
Qed.

Lemma preserves_axios (P : event -> Prop) (net : network) (r : http_request) :
  P (Requested r) -> preserves P (axios net r).
Proof.
  intros Hr st HP. rewrite (emits_axios net r st).
  apply Forall_app. split; [exact HP | auto].
Qed.

Lemma preserves_bind {A B} (P : event -> Prop) (c : M A) (k : A -> M B) :
  preserves P c -> (forall a, preserves P (k a)) -> preserves P (bind c k).
Proof.
  intros Hc Hk st HP. unfold bind. specialize (Hc st HP).
  destruct (c st) as [[e | a] st1]; simpl in *.
  - exact Hc.
  - apply Hk. exact Hc.
Qed.

(** What follows a conversion may rely on its result. *)
Lemma preserves_lift_bind {A B} (P : event -> Prop) (r : result A)
    (k : A -> M B) :
  (forall a, r = ok a -> preserves P (k a)) -> preserves P (x <- lift r ;; k x).
Proof.
  intros Hk st HP. destruct r as [e | a].
  - exact HP.
  - rewrite (bind_ok _ _ st st a eq_refl). apply (Hk a eq_refl). exact HP.
Qed.

Lemma preserves_try_catch {A} (P : event -> Prop) (c : M A) (h : exn -> M A) :
  preserves P c -> (forall e, preserves P (h e)) -> preserves P (try_catch c h).
Proof.
  intros Hc Hh st HP. unfold try_catch. specialize (Hc st HP).
  destruct (c st) as [[e | a] st1]; simpl in *.
  - apply Hh. exact Hc.
  - exact Hc.
Qed.

Lemma require_token_ok (x : option string) (msg tok : string) :
  require_token x msg = ok tok -> x = Some tok.
Proof.
  unfold require_token. destruct x as [t |]; [| discriminate].
  destruct (truthy (Str t)); [| discriminate].
  intros [= ->]. reflexivity.
Qed.

Section WithWorld.
Variable eng : engine.
Variable env : process_env.
Variable net : network.

(** *** Each client method sends one request at most *)

Lemma at_most_createDeployment tok projectName gitSource :
  at_most 1 (createDeployment eng net tok projectName gitSource).
Proof.
  unfold createDeployment.
  apply (at_most_bind 0 1); [apply at_most_invoked | intros _].
  apply (at_most_try_catch 1 0); [apply at_most_axios | intros e].
  apply at_most_offline. auto with offline.
Qed.

Lemma at_most_getServices tok : at_most 1 (getServices eng net tok).
Proof.
  unfold getServices.
  apply (at_most_bind 0 1); [apply at_most_invoked | intros _].
  apply (at_most_try_catch 1 0); [apply at_most_axios | intros e].
  apply at_most_offline. auto with offline.
Qed.

Lemma at_most_triggerDeployment tok serviceId :
  at_most 1 (triggerDeployment eng net tok serviceId).
Proof.
  unfold triggerDeployment.
  apply (at_most_bind 0 1); [apply at_most_invoked | intros _].
  apply (at_most_try_catch 1 0).
  - apply (at_most_bind 0 1);
      [apply at_most_offline; auto with offline | intros id].
    apply at_most_axios.
  - intros e. apply at_most_offline. auto with offline.
Qed.

Lemma at_most_vercel_getDeploymentStatus tok id :
  at_most 1 (vercel_getDeploymentStatus eng net tok id).
Proof.
  unfold vercel_getDeploymentStatus.
  apply (at_most_bind 0 1); [apply at_most_invoked | intros _].
  apply (at_most_try_catch 1 0).
  - apply (at_most_bind 0 1);
      [apply at_most_offline; auto with offline | intros s].
    apply at_most_axios.
  - intros e. apply at_most_offline. auto with offline.
Qed.

Lemma at_most_render_getDeploymentStatus tok id :
  at_most 1 (render_getDeploymentStatus eng net tok id).
Proof.
  unfold render_getDeploymentStatus.
  apply (at_most_bind 0 1); [apply at_most_invoked | intros _].
  apply (at_most_try_catch 1 0).
  - apply (at_most_bind 0 1);
      [apply at_most_offline; auto with offline | intros s].
    apply (at_most_bind 1 0); [apply at_most_axios | intros d].
    apply at_most_offline. auto with offline.
  - intros e. apply at_most_offline. auto with offline.
Qed.

(** *** The tools of [api/mcp.ts] *)

Lemma at_most_deploy_vercel args id :
  at_most 1 (deploy_vercel eng env net args id).
Proof.
  unfold deploy_vercel.
  apply (at_most_bind 0 1);
    [apply at_most_offline; auto with offline | intros _].
  apply (at_most_bind 0 1);
    [apply at_most_offline; auto with offline | intros tok].
  apply (at_most_bind 1 0); [apply at_most_createDeployment | intros d].
  apply at_most_offline. auto with offline.
Qed.

Lemma at_most_render_rest tok actual id :
  at_most 1
    (deployment <- triggerDeployment eng net tok actual ;;
     text <- lift (render_started eng deployment actual) ;;
     send_json 200 (result_envelope (text_content text) id)).
Proof.
  apply (at_most_bind 1 0); [apply at_most_triggerDeployment | intros d].
  apply at_most_offline. auto with offline.
Qed.

Lemma at_most_deploy_render args id :
  at_most 2 (deploy_render eng env net args id) /\
  (negb (truthy (get args "serviceId")) && truthy (get args "serviceName")
   = false ->
   at_most 1 (deploy_render eng env net args id)).
Proof.
  unfold deploy_render. split.
  - apply (at_most_bind 0 2);
      [apply at_most_offline; auto with offline | intros _].
    apply (at_most_bind 0 2);
      [apply at_most_offline; auto with offline | intros tok].
    apply (at_most_bind 1 1); [| intros actual; apply at_most_render_rest].
    destruct (negb (truthy (get args "serviceId"))
              && truthy (get args "serviceName")).
    + apply (at_most_bind 1 0); [apply at_most_getServices | intros services].
      apply at_most_offline.
      apply offline_bind; [auto with offline | intros service].
      destruct (negb (truthy service)); auto with offline.
    + apply (at_most_more 0 1); [lia |].
      apply at_most_offline. auto with offline.
  - intros ->.
    apply (at_most_bind 0 1);
      [apply at_most_offline; auto with offline | intros _].
    apply (at_most_bind 0 1);
      [apply at_most_offline; auto with offline | intros tok].
    apply (at_most_bind 0 1); [| intros actual; apply at_most_render_rest].
    apply at_most_offline. auto with offline.
Qed.

Lemma at_most_post_try uuid req :
  at_most 2 (post_try eng env net uuid req) /\
  (by_name req = false -> at_most 1 (post_try eng env net uuid req)).
Proof.
  unfold post_try, by_name.
  assert (Hcall : at_most 2 (tools_call eng env net (get (req_body req) "params")
                               (get (req_body req) "id")) /\
                  (by_name req = false ->
                   at_most 1 (tools_call eng env net
                                (get (req_body req) "params")
                                (get (req_body req) "id")))).
  { unfold tools_call, by_name. split.
    - apply (at_most_bind 0 2);
        [apply at_most_offline; auto with offline | intros _].
      destruct (is_str _ "deploy-vercel");
        [apply (at_most_more 1 2); [lia | apply at_most_deploy_vercel] |].
      destruct (is_str _ "deploy-render");
        [apply at_most_deploy_render |].
      apply (at_most_more 0 2); [lia |].
      apply at_most_offline. auto with offline.
    - intros Hby.
      apply (at_most_bind 0 1);
        [apply at_most_offline; auto with offline | intros _].
      destruct (is_str _ "deploy-vercel"); [apply at_most_deploy_vercel |].
      destruct (is_str _ "deploy-render").
      + apply at_most_deploy_render. simpl in Hby. exact Hby.
      + apply (at_most_more 0 1); [lia |].
        apply at_most_offline. auto with offline. }
  assert (Hmint : at_most 0
            (if negb (truthy (req_header req "mcp-session-id"))
             then set_header "Mcp-Session-Id" uuid else ret tt)).
  { apply at_most_offline.
    destruct (negb (truthy (req_header req "mcp-session-id")));
      auto with offline. }
  split.
  - apply (at_most_bind 0 2); [exact Hmint | intros _].
    apply (at_most_bind 0 2);
      [apply at_most_offline; auto with offline | intros _].
    destruct (is_str _ "initialize");
      [apply (at_most_more 0 2); [lia |];
       apply at_most_offline; auto with offline |].
    destruct (is_str _ "tools/list");
      [apply (at_most_more 0 2); [lia |];
       apply at_most_offline; auto with offline |].
    destruct (is_str _ "tools/call"); [apply Hcall |].
    apply (at_most_more 0 2); [lia |].
    apply at_most_offline. auto with offline.
  - intros Hby.
    apply (at_most_bind 0 1); [exact Hmint | intros _].
    apply (at_most_bind 0 1);
      [apply at_most_offline; auto with offline | intros _].
    destruct (is_str _ "initialize");
      [apply (at_most_more 0 1); [lia |];
       apply at_most_offline; auto with offline |].
    destruct (is_str _ "tools/list");
      [apply (at_most_more 0 1); [lia |];
       apply at_most_offline; auto with offline |].
    destruct (is_str _ "tools/call"); [apply Hcall; exact Hby |].
    apply (at_most_more 0 1); [lia |].
    apply at_most_offline. auto with offline.
Qed.

End WithWorld.
End BoundsFacts.

Module AuthFacts.
Import Js Host Clients Api Props Logic Bounds BoundsFacts.
Local Open Scope js_scope.
Local Open Scope list_scope.

Section WithWorld.
Variable eng : engine.
Variable env : process_env.
Variable net : network.

Lemma authorized_invoked (call : api_call) : authorized env (Invoked call).
Proof. exact I. Qed.

Lemma preserves_createDeployment tok projectName gitSource :
  VERCEL_TOKEN env = Some tok ->
  preserves (authorized env)
    (createDeployment eng net tok projectName gitSource).
Proof.
  intros Htok. unfold createDeployment.
  apply preserves_bind; [apply preserves_log, authorized_invoked | intros _].
  apply preserves_try_catch.
  - apply preserves_axios. left. exists tok. repeat split; assumption.
  - intros e. apply preserves_offline. auto with offline.
Qed.

Lemma preserves_getServices tok :
  RENDER_TOKEN env = Some tok ->
  preserves (authorized env) (getServices eng net tok).
Proof.
  intros Htok. unfold getServices.
  apply preserves_bind; [apply preserves_log, authorized_invoked | intros _].
  apply preserves_try_catch.
  - apply preserves_axios. right. exists tok. repeat split; assumption.
  - intros e. apply preserves_offline. auto with offline.
Qed.

Lemma preserves_triggerDeployment tok serviceId :
  RENDER_TOKEN env = Some tok ->
  preserves (authorized env) (triggerDeployment eng net tok serviceId).
Proof.
  intros Htok. unfold triggerDeployment.
  apply preserves_bind; [apply preserves_log, authorized_invoked | intros _].
  apply preserves_try_catch.
  - apply preserves_bind;
      [apply preserves_offline; auto with offline | intros id].
    apply preserves_axios. right. exists tok. repeat split; assumption.
  - intros e. apply preserves_offline. auto with offline.
Qed.

Lemma preserves_vercel_getDeploymentStatus tok id :
  VERCEL_TOKEN env = Some tok ->
  preserves (authorized env) (vercel_getDeploymentStatus eng net tok id).
Proof.
  intros Htok. unfold vercel_getDeploymentStatus.
  apply preserves_bind; [apply preserves_log, authorized_invoked | intros _].
  apply preserves_try_catch.
  - apply preserves_bind;
      [apply preserves_offline; auto with offline | intros s].
    apply preserves_axios. left. exists tok. repeat split; assumption.
  - intros e. apply preserves_offline. auto with offline.
Qed.

Lemma preserves_render_getDeploymentStatus tok id :
  RENDER_TOKEN env = Some tok ->
  preserves (authorized env) (render_getDeploymentStatus eng net tok id).
Proof.
  intros Htok. unfold render_getDeploymentStatus.
  apply preserves_bind; [apply preserves_log, authorized_invoked | intros _].
  apply preserves_try_catch.
  - apply preserves_bind;
      [apply preserves_offline; auto with offline | intros s].
    apply preserves_bind.
    + apply preserves_axios. right. exists tok. repeat split; assumption.
    + intros d. apply preserves_offline. auto with offline.
  - intros e. apply preserves_offline. auto with offline.
Qed.

Lemma preserves_deploy_vercel args id :
  preserves (authorized env) (deploy_vercel eng env net args id).
Proof.
  unfold deploy_vercel.
  apply preserves_bind; [apply preserves_offline; auto with offline | intros _].
  apply preserves_lift_bind. intros tok Htok. apply require_token_ok in Htok.
  apply preserves_bind; [apply preserves_createDeployment, Htok | intros d].
  apply preserves_offline. auto with offline.
Qed.

Lemma preserves_deploy_render args id :
  preserves (authorized env) (deploy_render eng env net args id).
Proof.
  unfold deploy_render.
  apply preserves_bind; [apply preserves_offline; auto with offline | intros _].
  apply preserves_lift_bind. intros tok Htok. apply require_token_ok in Htok.
  apply preserves_bind.
  - destruct (negb (truthy (get args "serviceId"))
              && truthy (get args "serviceName")).
    + apply preserves_bind; [apply preserves_getServices, Htok | intros services].
      apply preserves_offline.
      apply offline_bind; [auto with offline | intros service].
      destruct (negb (truthy service)); auto with offline.
    + apply preserves_offline. auto with offline.
  - intros actual.
    apply preserves_bind; [apply preserves_triggerDeployment, Htok | intros d].
    apply preserves_offline. auto with offline.
Qed.

Lemma preserves_post_try uuid req :
  preserves (authorized env) (post_try eng env net uuid req).
Proof.
  unfold post_try.
  apply preserves_bind.
  { apply preserves_offline.
    destruct (negb (truthy (req_header req "mcp-session-id")));
      auto with offline. }
  intros _.
  apply preserves_bind; [apply preserves_offline; auto with offline | intros _].
  destruct (is_str _ "initialize");
    [apply preserves_offline; auto with offline |].
  destruct (is_str _ "tools/list");
    [apply preserves_offline; auto with offline |].
  destruct (is_str _ "tools/call");
    [| apply preserves_offline; auto with offline].
  unfold tools_call.
  apply preserves_bind; [apply preserves_offline; auto with offline | intros _].
  destruct (is_str _ "deploy-vercel"); [apply preserves_deploy_vercel |].
  destruct (is_str _ "deploy-render"); [apply preserves_deploy_render |].
  apply preserves_offline. auto with offline.
Qed.

End WithWorld.
End AuthFacts.

Import BoundsFacts AuthFacts.

(** X6: a request makes the handler send two requests at most, and one at
    most unless it is a [deploy-render] by [serviceName]. *)
Theorem at_most_two_requests_per_request
    (eng : engine) (env : process_env) (net : network) (uuid : string)
    (req : request) :
  List.length (http_requests (trace (snd (handler eng env net uuid req initial))))
  <= 2 /\
  (by_name req = false ->
   List.length (http_requests (trace (snd (handler eng env net uuid req initial))))
   <= 1).
Proof.
  destruct (String.eqb_spec (req_method req) "POST") as [Hpost | Hother].
  - rewrite (handler_post_trace eng env net uuid req Hpost).
    destruct (at_most_post_try eng env net uuid req) as [Htwo Hone].
    split.
    + exact (Htwo (snd (cors initial))).
    + intros Hby. exact (Hone Hby (snd (cors initial))).
  - destruct (requests_other_than_post eng env net uuid req Hother) as [-> _].
    simpl. split; intros; lia.
Qed.

Lemma at_most_two_requests_per_request_witness :
  List.length
    (http_requests
       (trace (snd (handler plain_engine with_tokens provider "u-1"
                      (post [] (tool_call "deploy-render"
                                  (Obj [("serviceId"%string, Str "srv-1");
                                        ("serviceName"%string, Str "api")])
                                  (Num 1)))
                      initial))))
  <= 1.
Proof.
  apply (at_most_two_requests_per_request plain_engine with_tokens provider
           "u-1"
           (post [] (tool_call "deploy-render"
                       (Obj [("serviceId"%string, Str "srv-1");
                             ("serviceName"%string, Str "api")])
                       (Num 1)))).
  reflexivity.
Defined.

(** X7: whatever the request, every request the handler sends goes to
    [api.vercel.com] with the Vercel token of the environment as bearer,
    or to [api.render.com] with its Render token: no other host is
    contacted and no token reaches the other provider. *)
Theorem tokens_stay_with_their_provider
    (eng : engine) (env : process_env) (net : network) (uuid : string)
    (req : request) :
  Forall (authorized env) (trace (snd (handler eng env net uuid req initial))).
Proof.
  destruct (String.eqb_spec (req_method req) "POST") as [Hpost | Hother].
  - rewrite (handler_post_trace eng env net uuid req Hpost).
    apply preserves_post_try. constructor.
  - destruct (requests_other_than_post eng env net uuid req Hother) as [-> _].
    constructor.
Qed.

(** ** What the clients make of a reply *)

Module ReplyFacts.
Import Js Host Clients Api Props Logic ClientFacts ApiFacts Bounds.
Local Open Scope js_scope.
Local Open Scope list_scope.

Section WithWorld.
Variable eng : engine.
Variable net : network.
Variable tok : string.

Lemma createDeployment_run (projectName gitSource : value) (st : state) :
  createDeployment eng net tok projectName gitSource st
  = match net (trace st ++ [Invoked (CreateDeployment projectName gitSource)])
            (create_request tok projectName gitSource) with
    | Replied d =>
        (ok d,
         went_out st [Invoked (CreateDeployment projectName gitSource);
                      Requested (create_request tok projectName gitSource)])
    | Failed m d =>
        (and_then
           (to_string (or_else (opt_get (opt_get d "error") "message") (Str m)))
           (fun why => raise (Error ("Vercel deployment failed: " ++ why)%string)),
         went_out st [Invoked (CreateDeployment projectName gitSource);
                      Requested (create_request tok projectName gitSource)])
    end.
Proof.
  unfold createDeployment.
  rewrite (bind_ok _ _ st
             (went_out st [Invoked (CreateDeployment projectName gitSource)])
             tt eq_refl).
  unfold try_catch, axios. simpl trace.
  fold (create_request tok projectName gitSource).
  destruct (net _ _) as [d | m d]; unfold went_out; simpl;
    rewrite <- app_assoc; simpl.
  - reflexivity.
  - unfold bind, lift.
    destruct (to_string (or_else (opt_get (opt_get d "error") "message") (Str m)));
      reflexivity.
Qed.

Lemma triggerDeployment_run (serviceId : value) (id : string) (st : state) :
  to_string serviceId = ok id ->
  triggerDeployment eng net tok serviceId st
  = match net (trace st ++ [Invoked (TriggerDeployment serviceId)])
            (deploys_request tok id) with
    | Replied d =>
        (ok d,
         went_out st [Invoked (TriggerDeployment serviceId);
                      Requested (deploys_request tok id)])
    | Failed m d =>
        (and_then
           (to_string (or_else (opt_get d "message") (Str m)))
           (fun why => raise (Error ("Render deployment failed: " ++ why)%string)),
         went_out st [Invoked (TriggerDeployment serviceId);
                      Requested (deploys_request tok id)])
    end.
Proof.
  intros Hid. unfold triggerDeployment.
  rewrite (bind_ok _ _ st
             (went_out st [Invoked (TriggerDeployment serviceId)]) tt eq_refl).
  unfold try_catch.
  rewrite (bind_ok _ _ _ (went_out st [Invoked (TriggerDeployment serviceId)]) id)
    by (unfold lift; rewrite Hid; reflexivity).
  unfold axios. simpl trace. fold (deploys_request tok id).
  destruct (net _ _) as [d | m d]; unfold went_out; simpl;
    rewrite <- app_assoc; simpl.
  - reflexivity.
  - unfold bind, lift.
    destruct (to_string (or_else (opt_get d "message") (Str m))); reflexivity.
Qed.

Lemma getServices_run (st : state) :
  getServices eng net tok st
  = match net (trace st ++ [Invoked GetServices]) (services_request tok) with
    | Replied d =>
        (ok d,
         went_out st [Invoked GetServices; Requested (services_request tok)])
    | Failed m d =>
        (raise (Error ("Failed to get Render services: " ++ m)%string),
         went_out st [Invoked GetServices; Requested (services_request tok)])
    end.
Proof.
  unfold getServices.
  rewrite (bind_ok _ _ st (went_out st [Invoked GetServices]) tt eq_refl).
  unfold try_catch, axios. simpl trace. fold (services_request tok).
  destruct (net _ _) as [d | m d]; unfold went_out; simpl;
    rewrite <- app_assoc; reflexivity.
Qed.

End WithWorld.
End ReplyFacts.

Import ReplyFacts.

(** X11: when the Vercel call is rejected, [createDeployment] throws an
    [Error] whose message is [Vercel deployment failed: ] followed by
    the message of the provider's reply, [data.error.message], when that
    is a non-empty string, and by the message of the axios error when
    the reply has none. *)
Theorem vercel_failure_message
    (eng : engine) (net : network) (tok : string)
    (projectName gitSource : value) (st : state) (m : string) (d : value) :
  net (trace st ++ [Invoked (CreateDeployment projectName gitSource)])
    (create_request tok projectName gitSource) = Failed m d ->
  (forall provided,
     opt_get (opt_get d "error") "message" = Str provided ->
     provided <> ""%string ->
     fst (createDeployment eng net tok projectName gitSource st)
     = raise (Error ("Vercel deployment failed: " ++ provided)%string)) /\
  (truthy (opt_get (opt_get d "error") "message") = false ->
   fst (createDeployment eng net tok projectName gitSource st)
   = raise (Error ("Vercel deployment failed: " ++ m)%string)).
Proof.
  intros Hnet. rewrite createDeployment_run, Hnet. simpl fst. split.
  - intros provided Hp Hne. rewrite Hp. unfold or_else.
    rewrite (truthy_str _ Hne). reflexivity.
  - intros Hfalsy. unfold or_else. rewrite Hfalsy. reflexivity.
Qed.

Lemma vercel_failure_message_witness :
  fst (createDeployment plain_engine
         (fun _ _ => Failed "Request failed with status code 404"
                       (Obj [("error"%string,
                              Obj [("message"%string,
                                    Str "Project not found")])]))
         "vercel-token" (Str "demo") Undefined initial)
  = raise (Error "Vercel deployment failed: Project not found").
Proof.
  apply (proj1 (vercel_failure_message plain_engine
                  (fun _ _ => Failed "Request failed with status code 404"
                                (Obj [("error"%string,
                                       Obj [("message"%string,
                                             Str "Project not found")])]))
                  "vercel-token" (Str "demo") Undefined initial
                  "Request failed with status code 404"
                  (Obj [("error"%string,
                         Obj [("message"%string, Str "Project not found")])])
                  eq_refl) "Project not found"%string eq_refl).
  discriminate.
Defined.

(** X12: the two Render methods differ in what they report: a rejected
    [triggerDeployment] passes the [data.message] of the provider's
    reply on when it is a non-empty string (and the axios message
    otherwise), while a rejected [getServices] always reports the axios
    message and never looks at the reply. *)
Theorem render_failure_messages
    (eng : engine) (net : network) (tok : string) (st : state)
    (m : string) (d : value) :
  (forall serviceId id,
     to_string serviceId = ok id ->
     net (trace st ++ [Invoked (TriggerDeployment serviceId)])
       (deploys_request tok id) = Failed m d ->
     (forall provided,
        opt_get d "message" = Str provided -> provided <> ""%string ->
        fst (triggerDeployment eng net tok serviceId st)
        = raise (Error ("Render deployment failed: " ++ provided)%string)) /\
     (truthy (opt_get d "message") = false ->
      fst (triggerDeployment eng net tok serviceId st)
      = raise (Error ("Render deployment failed: " ++ m)%string))) /\
  (net (trace st ++ [Invoked GetServices]) (services_request tok) = Failed m d ->
   fst (getServices eng net tok st)
   = raise (Error ("Failed to get Render services: " ++ m)%string)).
Proof.
  split.
  - intros serviceId id Hid Hnet.
    rewrite (triggerDeployment_run eng net tok serviceId id st Hid), Hnet.
    simpl fst. split.
    + intros provided Hp Hne. rewrite Hp. unfold or_else.
      rewrite (truthy_str _ Hne). reflexivity.
    + intros Hfalsy. unfold or_else. rewrite Hfalsy. reflexivity.
  - intros Hnet. rewrite getServices_run, Hnet. reflexivity.
Qed.

Lemma render_failure_messages_witness :
  fst (triggerDeployment plain_engine
         (fun _ _ => Failed "Request failed with status code 401"
                       (Obj [("message"%string, Str "Unauthorized")]))
         "render-token" (Str "srv-1") initial)
  = raise (Error "Render deployment failed: Unauthorized") /\
  fst (getServices plain_engine
         (fun _ _ => Failed "Request failed with status code 401"
                       (Obj [("message"%string, Str "Unauthorized")]))
         "render-token" initial)
  = raise (Error "Failed to get Render services: Request failed with status code 401").
Proof.
  destruct (render_failure_messages plain_engine
              (fun _ _ => Failed "Request failed with status code 401"
                            (Obj [("message"%string, Str "Unauthorized")]))
              "render-token" initial "Request failed with status code 401"
              (Obj [("message"%string, Str "Unauthorized")]))
    as [Htrigger Hlist].
  split.
  - apply (proj1 (Htrigger (Str "srv-1") "srv-1"%string eq_refl eq_refl)
             "Unauthorized"%string eq_refl).
    discriminate.
  - exact (Hlist eq_refl).
Defined.

(** ** The two tools of [api/mcp.ts], argument by argument *)

(** A dispatched [tools/call] is its tool inside the [try]. *)
Lemma handler_tool_call
    (eng : engine) (env : process_env) (net : network) (uuid : string)
    (req : request) (tool : value -> value -> M unit) :
  req_method req = "POST"%string ->
  get (req_body req) "method" = Str "tools/call" ->
  nullish (get (req_body req) "params") = false ->
  dispatches eng env net (get (get (req_body req) "params") "name") tool ->
  handler eng env net uuid req initial
  = try_catch
      (tool (get (get (req_body req) "params") "arguments")
         (get (req_body req) "id"))
      (post_catch eng req)
      (at_session uuid req (snd (cors initial))).
Proof.
  intros Hpost Hm Hp Hd.
  rewrite (handler_post eng env net uuid req Hpost). unfold try_catch.
  rewrite (post_try_tools_call eng env net uuid req _ Hm).
  rewrite (Hd _ _ _ Hp eq_refl). reflexivity.
Qed.

(** X8: [deploy-render] with a [serviceId] calls [triggerDeployment] on
    it and never lists the services, whether or not a [serviceName] comes
    with it; when the [serviceId] is a string, as the tool's schema has
    it, the one request that leaves is the POST to the [deploys] of that
    service. *)
Theorem deploy_render_by_service_id
    (eng : engine) (env : process_env) (net : network) (uuid : string)
    (req : request) (tok : string) :
  req_method req = "POST"%string ->
  get (req_body req) "method" = Str "tools/call" ->
  get (get (req_body req) "params") "name" = Str "deploy-render" ->
  truthy (get (get (get (req_body req) "params") "arguments") "serviceId")
  = true ->
  RENDER_TOKEN env = Some tok -> tok <> ""%string ->
  api_calls (trace (snd (handler eng env net uuid req initial)))
  = [TriggerDeployment
       (get (get (get (req_body req) "params") "arguments") "serviceId")] /\
  forall sid,
    get (get (get (req_body req) "params") "arguments") "serviceId" = Str sid ->
    trace (snd (handler eng env net uuid req initial))
    = [Invoked (TriggerDeployment (Str sid));
       Requested (deploys_request tok sid)].
Proof.
  intros Hpost Hm Hn Hid Htok Hne.
  pose proof (get_str_object _ _ _ Hn) as Hp.
  assert (Hargs : nullish (get (get (req_body req) "params") "arguments")
                  = false).
  { destruct (get (get (req_body req) "params") "arguments");
      try discriminate Hid; reflexivity. }
  assert (Htrace : trace (snd (handler eng env net uuid req initial))
                   = trigger_events tok
                       (get (get (get (req_body req) "params") "arguments")
                          "serviceId")).
  { rewrite (tool_call_trace eng env net uuid req (deploy_render eng env net)
               Hpost Hm Hp).
    - rewrite (deploy_render_direct eng env net _ _ tok Hargs Htok Hne).
      + rewrite at_session_trace. reflexivity.
      + rewrite Hid. reflexivity.
    - rewrite Hn. apply tools_call_deploy_render. }
  rewrite Htrace. split.
  - unfold trigger_events.
    destruct (to_string _); reflexivity.
  - intros sid ->. reflexivity.
Qed.

Lemma deploy_render_by_service_id_witness :
  trace (snd (handler plain_engine with_tokens provider "u-1"
                (post [] (tool_call "deploy-render"
                            (Obj [("serviceId"%string, Str "srv-9");
                                  ("serviceName"%string, Str "api")])
                            (Num 1)))
                initial))
  = [Invoked (TriggerDeployment (Str "srv-9"));
     Requested (deploys_request "render-token" "srv-9")].
Proof.
  refine (proj2 (deploy_render_by_service_id plain_engine with_tokens provider
                   "u-1"
                   (post [] (tool_call "deploy-render"
                               (Obj [("serviceId"%string, Str "srv-9");
                                     ("serviceName"%string, Str "api")])
                               (Num 1)))
                   "render-token" eq_refl eq_refl eq_refl eq_refl eq_refl _)
            "srv-9"%string eq_refl).
  discriminate.
Defined.

(** X9: [deploy-vercel] with its token sends one request, whatever its
    arguments.  The posted [gitSource] names the repository and the
    branch (or [main]) when a [gitRepo] is given; without a [gitRepo] it
    is [{ type: 'github', ref: 'main' }], and a [branch] given alone is
    dropped. *)
Theorem deploy_vercel_posted_git_source
    (eng : engine) (env : process_env) (net : network) (uuid : string)
    (req : request) (tok : string) :
  req_method req = "POST"%string ->
  get (req_body req) "method" = Str "tools/call" ->
  get (get (req_body req) "params") "name" = Str "deploy-vercel" ->
  nullish (get (get (req_body req) "params") "arguments") = false ->
  VERCEL_TOKEN env = Some tok -> tok <> ""%string ->
  exists r,
    http_requests (trace (snd (handler eng env net uuid req initial))) = [r] /\
    verb r = POST /\
    url r = "https://api.vercel.com/v13/deployments"%string /\
    get (data r) "name"
    = get (get (get (req_body req) "params") "arguments") "projectName" /\
    get (data r) "gitSource"
    = if truthy (get (get (get (req_body req) "params") "arguments") "gitRepo")
      then Obj [("type"%string, Str "github");
                ("repo"%string,
                 get (get (get (req_body req) "params") "arguments") "gitRepo");
                ("ref"%string,
                 match get (get (get (req_body req) "params") "arguments")
                         "branch" with
                 | Undefined => Str "main"
                 | b => b
                 end)]
      else Obj [("type"%string, Str "github"); ("ref"%string, Str "main")].
Proof.
  intros Hpost Hm Hn Hargs Htok Hne.
  pose proof (get_str_object _ _ _ Hn) as Hp.
  eexists. split.
  - rewrite (tool_call_trace eng env net uuid req (deploy_vercel eng env net)
               Hpost Hm Hp)
      by (rewrite Hn; apply tools_call_deploy_vercel).
    rewrite (deploy_vercel_emits eng env net _ _ tok Hargs Htok Hne).
    rewrite at_session_trace. reflexivity.
  - repeat split.
    destruct (truthy (get (get (get (req_body req) "params") "arguments")
                        "gitRepo")); reflexivity.
Qed.

Lemma deploy_vercel_posted_git_source_witness :
  exists r,
    http_requests
      (trace (snd (handler plain_engine with_tokens provider "u-1"
                     (post [] (tool_call "deploy-vercel"
                                 (Obj [("projectName"%string, Str "demo");
                                       ("branch"%string, Str "dev")])
                                 (Num 1)))
                     initial))) = [r] /\
    get (data r) "gitSource"
    = Obj [("type"%string, Str "github"); ("ref"%string, Str "main")].
Proof.
  destruct (deploy_vercel_posted_git_source plain_engine with_tokens provider
              "u-1"
              (post [] (tool_call "deploy-vercel"
                          (Obj [("projectName"%string, Str "demo");
                                ("branch"%string, Str "dev")])
                          (Num 1)))
              "vercel-token" eq_refl eq_refl eq_refl eq_refl eq_refl
              ltac:(discriminate))
    as [r [Hr [_ [_ [_ Hg]]]]].
  exists r. split; [exact Hr | exact Hg].
Defined.

(** The text of a deployment whose fields are strings; a missing or
    empty [readyState] reads [BUILDING]. *)
Lemma vercel_started_text (eng : engine) (d : value) (i u t : string) :
  get d "id" = Str i -> get d "url" = Str u -> get d "target" = Str t ->
  truthy (get d "readyState") = false ->
  vercel_started d
  = ok ("✅ Vercel deployment started!" ++ nl ++ nl
        ++ "🆔 Deployment ID: " ++ i ++ nl
        ++ "🔗 URL: https://" ++ u ++ nl
        ++ "📊 Status: BUILDING" ++ nl
        ++ "🌟 Target: " ++ t ++ nl ++ nl
        ++ "⏱️ Check status with deployment ID: " ++ i)%string.
Proof.
  intros Hi Hu Ht Hrs.
  pose proof (get_str_object _ _ _ Hi) as Hd.
  unfold vercel_started, member_string, member. rewrite Hd.
  cbn [and_then ok]. rewrite Hi, Hu, Ht. cbn [and_then ok to_string].
  unfold or_else. rewrite Hrs. reflexivity.
Qed.

(** X10: when Vercel accepts the deployment and answers with string fields
    and no [readyState], the reply is a result envelope with the [id] of
    the request, whatever it is, and a text that gives the deployment's
    identifier, URL and target and the status [BUILDING]. *)
Theorem deploy_vercel_accepted
    (eng : engine) (env : process_env) (net : network) (uuid : string)
    (req : request) (tok : string) (d : value) (i u t : string) :
  req_method req = "POST"%string ->
  get (req_body req) "method" = Str "tools/call" ->
  get (get (req_body req) "params") "name" = Str "deploy-vercel" ->
  nullish (get (get (req_body req) "params") "arguments") = false ->
  VERCEL_TOKEN env = Some tok -> tok <> ""%string ->
  net [Invoked (CreateDeployment
                  (get (get (get (req_body req) "params") "arguments")
                     "projectName")
                  (vercel_git_source
                     (get (get (req_body req) "params") "arguments")))]
    (create_request tok
       (get (get (get (req_body req) "params") "arguments") "projectName")
       (vercel_git_source (get (get (req_body req) "params") "arguments")))
  = Replied d ->
  get d "id" = Str i -> get d "url" = Str u -> get d "target" = Str t ->
  truthy (get d "readyState") = false ->
  res_sent (snd (handler eng env net uuid req initial))
  = [(200%Z,
      Json (result_envelope
              (text_content
                 ("✅ Vercel deployment started!" ++ nl ++ nl
                  ++ "🆔 Deployment ID: " ++ i ++ nl
                  ++ "🔗 URL: https://" ++ u ++ nl
                  ++ "📊 Status: BUILDING" ++ nl
                  ++ "🌟 Target: " ++ t ++ nl ++ nl
                  ++ "⏱️ Check status with deployment ID: " ++ i)%string)
              (get (req_body req) "id")))].
Proof.
  intros Hpost Hm Hn Hargs Htok Hne Hnet Hi Hu Ht Hrs.
  pose proof (get_str_object _ _ _ Hn) as Hp.
  rewrite (handler_tool_call eng env net uuid req (deploy_vercel eng env net)
             Hpost Hm Hp)
    by (rewrite Hn; apply tools_call_deploy_vercel).
  unfold try_catch, deploy_vercel.
  set (st := at_session uuid req (snd (cors initial))).
  rewrite (bind_ok _ _ st st tt)
    by (unfold lift, destructurable; rewrite Hargs; reflexivity).
  rewrite (bind_ok _ _ st st tok)
    by (unfold lift; rewrite Htok, (require_token_set _ _ Hne); reflexivity).
  fold (vercel_git_source (get (get (req_body req) "params") "arguments")).
  erewrite bind_ok.
  2:{ rewrite createDeployment_run. unfold st at 1.
      rewrite at_session_trace. simpl app. rewrite Hnet. reflexivity. }
  erewrite bind_ok
    by (unfold lift; rewrite (vercel_started_text eng d i u t Hi Hu Ht Hrs);
        reflexivity).
  simpl. unfold st. rewrite at_session_sent. reflexivity.
Qed.

Lemma deploy_vercel_accepted_witness :
  res_sent (snd (handler plain_engine with_tokens
                   (fun _ _ => Replied (Obj [("id"%string, Str "dep_1");
                                             ("url"%string, Str "demo.example");
                                             ("target"%string, Str "production")]))
                   "u-1"
                   (post [] (tool_call "deploy-vercel"
                               (Obj [("projectName"%string, Str "demo")])
                               (Num 0)))
                   initial))
  = [(200%Z,
      Json (result_envelope
              (text_content
                 ("✅ Vercel deployment started!" ++ nl ++ nl
                  ++ "🆔 Deployment ID: " ++ "dep_1" ++ nl
                  ++ "🔗 URL: https://" ++ "demo.example" ++ nl
                  ++ "📊 Status: BUILDING" ++ nl
                  ++ "🌟 Target: " ++ "production" ++ nl ++ nl
                  ++ "⏱️ Check status with deployment ID: " ++ "dep_1")%string)
              (Num 0)))].
Proof.
  apply (deploy_vercel_accepted plain_engine with_tokens
           (fun _ _ => Replied (Obj [("id"%string, Str "dep_1");
                                     ("url"%string, Str "demo.example");
                                     ("target"%string, Str "production")]))
           "u-1"
           (post [] (tool_call "deploy-vercel"
                       (Obj [("projectName"%string, Str "demo")]) (Num 0)))
           "vercel-token"
           (Obj [("id"%string, Str "dep_1"); ("url"%string, Str "demo.example");
                 ("target"%string, Str "production")])
           "dep_1" "demo.example" "production");
    try reflexivity; discriminate.
Defined.

(** ** The callbacks of [server.ts], call by call *)

Module ServerBounds.
Import Js Host Clients Props Logic ClientFacts Bounds BoundsFacts AuthFacts.
Local Open Scope js_scope.
Local Open Scope list_scope.


Section WithWorld.
Variable eng : engine.
Variable env : process_env.
Variable net : network.

Lemma silent_vercel_getDeploymentStatus tok id :
  silent (vercel_getDeploymentStatus eng net tok id).
Proof. unfold vercel_getDeploymentStatus; auto 10 with silent. Qed.

Lemma silent_render_getDeploymentStatus tok id :
  silent (render_getDeploymentStatus eng net tok id).
Proof. unfold render_getDeploymentStatus; auto 10 with silent. Qed.

Lemma silent_run (i : Server.invocation) : silent (Server.run eng env net i).
Proof.
  destruct i as [pn gr br | sid sn | p id | p]; simpl;
    unfold Server.deploy_vercel, Server.deploy_render,
      Server.check_deployment_status, Server.list_services;
    apply silent_try_catch; try (intros e; apply silent_ret).
  - auto 10 with silent.
  - apply silent_bind; [auto with silent | intros tok].
    apply silent_bind; [| intros actual; auto 10 with silent].
    destruct (negb (truthy (Str sid)) && truthy (Server.optional sn));
      [| auto with silent].
    apply silent_bind; [auto with silent | intros services].
    apply silent_bind; [auto with silent | intros service].
    destruct (negb (truthy service)); auto with silent.
  - destruct p.
    + apply silent_bind; [auto with silent | intros tok].
      apply silent_bind;
        [apply silent_vercel_getDeploymentStatus | intros d].
      auto with silent.
    + apply silent_bind; [auto with silent | intros tok].
      apply silent_bind;
        [apply silent_render_getDeploymentStatus | intros d].
      auto with silent.
  - destruct p; auto 10 with silent.
Qed.

Lemma at_most_run (i : Server.invocation) :
  at_most (server_budget i) (Server.run eng env net i).
Proof.
  destruct i as [pn gr br | sid sn | p id | p]; simpl.
  - unfold Server.deploy_vercel.
    apply (at_most_try_catch 1 0);
      [| intros e; apply at_most_offline; auto with offline].
    apply (at_most_bind 0 1);
      [apply at_most_offline; auto with offline | intros tok].
    apply (at_most_bind 1 0); [apply at_most_createDeployment | intros d].
    apply at_most_offline. auto with offline.
  - unfold Server.deploy_render.
    apply (at_most_try_catch 2 0);
      [| intros e; apply at_most_offline; auto with offline].
    apply (at_most_bind 0 2);
      [apply at_most_offline; auto with offline | intros tok].
    apply (at_most_bind 1 1).
    + destruct (negb (truthy (Str sid)) && truthy (Server.optional sn)).
      * apply (at_most_bind 1 0); [apply at_most_getServices | intros services].
        apply at_most_offline.
        apply offline_bind; [auto with offline | intros service].
        destruct (negb (truthy service)); auto with offline.
      * apply (at_most_more 0 1); [lia |].
        apply at_most_offline. auto with offline.
    + intros actual.
      apply (at_most_bind 1 0); [apply at_most_triggerDeployment | intros d].
      apply at_most_offline. auto with offline.
  - unfold Server.check_deployment_status.
    replace (server_budget (Server.CheckDeploymentStatus p id)) with (1 + 0)
      by (destruct p; reflexivity).
    apply (at_most_try_catch 1 0);
      [| intros e; apply at_most_offline; auto with offline].
    destruct p.
    + apply (at_most_bind 0 1);
        [apply at_most_offline; auto with offline | intros tok].
      apply (at_most_bind 1 0);
        [apply at_most_vercel_getDeploymentStatus | intros d].
      apply at_most_offline. auto with offline.
    + apply (at_most_bind 0 1);
        [apply at_most_offline; auto with offline | intros tok].
      apply (at_most_bind 1 0);
        [apply at_most_render_getDeploymentStatus | intros d].
      apply at_most_offline. auto with offline.
  - unfold Server.list_services. destruct p; simpl.
    + apply (at_most_try_catch 0 0);
        apply at_most_offline || (intros e; apply at_most_offline);
        auto with offline.
    + apply (at_most_try_catch 1 0);
        [| intros e; apply at_most_offline; auto with offline].
      apply (at_most_bind 0 1);
        [apply at_most_offline; auto with offline | intros tok].
      apply (at_most_bind 1 0); [apply at_most_getServices | intros services].
      apply at_most_offline. auto with offline.
Qed.

Lemma preserves_run (i : Server.invocation) :
  preserves (authorized env) (Server.run eng env net i).
Proof.
  destruct i as [pn gr br | sid sn | p id | p]; simpl;
    unfold Server.deploy_vercel, Server.deploy_render,
      Server.check_deployment_status, Server.list_services;
    (apply preserves_try_catch;
     [| intros e; apply preserves_offline; auto with offline]).
  - apply preserves_lift_bind. intros tok Htok. apply require_token_ok in Htok.
    apply preserves_bind;
      [apply preserves_createDeployment, Htok | intros d].
    apply preserves_offline. auto with offline.
  - apply preserves_lift_bind. intros tok Htok. apply require_token_ok in Htok.
    apply preserves_bind.
    + destruct (negb (truthy (Str sid)) && truthy (Server.optional sn)).
      * apply preserves_bind;
          [apply preserves_getServices, Htok | intros services].
        apply preserves_offline.
        apply offline_bind; [auto with offline | intros service].
        destruct (negb (truthy service)); auto with offline.
      * apply preserves_offline. auto with offline.
    + intros actual.
      apply preserves_bind;
        [apply preserves_triggerDeployment, Htok | intros d].
      apply preserves_offline. auto with offline.
  - destruct p.
    + apply preserves_lift_bind. intros tok Htok.
      apply require_token_ok in Htok.
      apply preserves_bind;
        [apply preserves_vercel_getDeploymentStatus, Htok | intros d].
      apply preserves_offline. auto with offline.
    + apply preserves_lift_bind. intros tok Htok.
      apply require_token_ok in Htok.
      apply preserves_bind;
        [apply preserves_render_getDeploymentStatus, Htok | intros d].
      apply preserves_offline. auto with offline.
  - destruct p.
    + apply preserves_offline. auto with offline.
    + apply preserves_lift_bind. intros tok Htok.
      apply require_token_ok in Htok.
      apply preserves_bind; [apply preserves_getServices, Htok | intros services].
      apply preserves_offline. auto with offline.
Qed.

End WithWorld.
End ServerBounds.

Import ServerBounds.

(** X14: a callback of [server.ts] writes nothing to a response, sends one
    request at most ([deploy-render] two, the listing of Vercel projects
    none, even with the tokens set), and sends each to the provider
    whose token it carries. *)
Theorem server_callbacks_stay_within_their_budget
    (eng : engine) (env : process_env) (net : network)
    (i : Server.invocation) :
  silent (Server.run eng env net i) /\
  at_most (server_budget i) (Server.run eng env net i) /\
  preserves (authorized env) (Server.run eng env net i).
Proof.
  split; [apply silent_run |]. split; [apply at_most_run | apply preserves_run].
Qed.

(** X16: [check-deployment-status] on a Render service that has no deployment
    yet: the listing of its deployments comes back empty, its first item
    is [undefined], and the callback returns the failure text of reading
    [id] off it, after its one request. *)
Theorem render_status_without_deployments
    (eng : engine) (env : process_env) (net : network)
    (id tok : string) (st : state) :
  RENDER_TOKEN env = Some tok -> tok <> ""%string ->
  net (trace st ++ [Invoked (RenderGetDeploymentStatus (Str id))])
    (render_status_request tok id) = Replied (Arr []) ->
  Server.run eng env net (Server.CheckDeploymentStatus Server.Render id) st
  = (ok (Server.text_content
           ("❌ Failed to check deployment status: "
            ++ type_error_message eng (CannotReadProperty "id"))%string),
     went_out st [Invoked (RenderGetDeploymentStatus (Str id));
                  Requested (render_status_request tok id)]).
Proof.
  intros Htok Hne Hnet. simpl.
  unfold Server.check_deployment_status, try_catch.
  rewrite (bind_ok _ _ st st tok)
    by (unfold lift; rewrite Htok, (require_token_set _ _ Hne); reflexivity).
  assert (Hrun : render_getDeploymentStatus eng net tok (Str id) st
                 = (ok Undefined,
                    went_out st [Invoked (RenderGetDeploymentStatus (Str id));
                                 Requested (render_status_request tok id)])).
  { unfold render_getDeploymentStatus.
    rewrite (bind_ok _ _ st
               (went_out st [Invoked (RenderGetDeploymentStatus (Str id))])
               tt eq_refl).
    unfold try_catch.
    rewrite (bind_ok _ _ _
               (went_out st [Invoked (RenderGetDeploymentStatus (Str id))])
               id eq_refl).
    unfold bind, axios. simpl trace. fold (render_status_request tok id).
    rewrite Hnet. unfold went_out. simpl. rewrite <- app_assoc. reflexivity. }
  rewrite (bind_ok _ _ _ _ _ Hrun). reflexivity.
Qed.

Lemma render_status_without_deployments_witness :
  fst (Server.run plain_engine with_tokens (fun _ _ => Replied (Arr []))
         (Server.CheckDeploymentStatus Server.Render "srv-1") initial)
  = ok (Server.text_content
          "❌ Failed to check deployment status: Cannot read properties of undefined (reading 'id')").
Proof.
  rewrite (render_status_without_deployments plain_engine with_tokens
             (fun _ _ => Replied (Arr [])) "srv-1" "render-token" initial
             eq_refl ltac:(discriminate) eq_refl).
  reflexivity.
Defined.


(** ** [api/health.ts] *)

Lemma flag_set (x : option string) (msg : string) :
  Health.flag x = "✅ Set"%string <-> exists tok, require_token x msg = ok tok.
Proof.
  unfold Health.flag, require_token. destruct x as [tok |].
  - destruct (truthy (Str tok)); split.
    + intros _. exists tok. reflexivity.
    + reflexivity.
    + discriminate.
    + intros [tok' H]. discriminate H.
  - split; [discriminate | intros [tok' H]; discriminate H].
Qed.

Lemma flag_missing (x : option string) :
  Health.flag x = "❌ Missing"%string <-> unset x.
Proof.
  unfold Health.flag, unset. destruct x as [tok |].
  - simpl. destruct (String.eqb_spec tok "") as [-> | Hne]; simpl; split.
    + intros _. right. reflexivity.
    + reflexivity.
    + discriminate.
    + intros [H | H]; [discriminate H | injection H as H; contradiction].
  - split; [intros _; left; reflexivity | reflexivity].
Qed.

(** X18: the health check answers 200 and contacts nobody, and what it
    reports of a token is what the tools will find: [✅ Set] exactly when
    the token check of a tool passes, [❌ Missing] exactly when the
    variable is missing or empty. *)
Theorem health_flags_tell_what_the_tools_will_find
    (env : process_env) (now : string) (st : state) (t : token) :
  exists body,
    res_sent (snd (Health.handler env now st))
    = res_sent st ++ [(200%Z, Json body)] /\
    trace (snd (Health.handler env now st)) = trace st /\
    (get (get body "environment") (health_key t) = Str "✅ Set" <->
     exists tok, require_token (env_token env t) (token_message t) = ok tok) /\
    (get (get body "environment") (health_key t) = Str "❌ Missing" <->
     unset (env_token env t)).
Proof.
  eexists. split; [reflexivity |]. split; [reflexivity |].
  destruct t; simpl get; simpl env_token; split.
  - rewrite <- (flag_set (VERCEL_TOKEN env)). split; congruence.
  - rewrite <- (flag_missing (VERCEL_TOKEN env)). split; congruence.
  - rewrite <- (flag_set (RENDER_TOKEN env)). split; congruence.
  - rewrite <- (flag_missing (RENDER_TOKEN env)). split; congruence.
Qed.

(** ** The earlier serverless entry point against the present one *)

Module LegacyFacts.
Import Js Host Clients Api Props Logic ClientFacts ApiFacts Bounds.
Local Open Scope js_scope.
Local Open Scope list_scope.

Lemma agrees_send (id : value) (text : string) :
  agrees id (send_json 200 (result_envelope (text_content text) id))
    (ret (Legacy.text_content text)).
Proof.
  intros st. split; [reflexivity |]. exists text. split; reflexivity.
Qed.

Lemma agrees_throw (id : value) (e : exn) : agrees id (throw e) (throw e).
Proof. intros st. repeat split. Qed.

Lemma agrees_bind {A} (id : value) (c : M A)
    (ka : A -> M unit) (kl : A -> M value) :
  silent c -> (forall x, agrees id (ka x) (kl x)) ->
  agrees id (bind c ka) (bind c kl).
Proof.
  intros Hc Hk st. unfold bind.
  destruct (Hc st) as [Hsent _].
  destruct (c st) as [[e | x] st1]; simpl in *.
  - repeat split. exact Hsent.
  - destruct (Hk x st1) as [Htrace Hout]. split; [exact Htrace |].
    destruct (fst (ka x st1)) as [e | u], (fst (kl x st1)) as [e' | v];
      try contradiction.
    + destruct Hout as [-> Hs]. split; [reflexivity | congruence].
    + destruct Hout as [text [-> Hs]]. exists text.
      split; [reflexivity | congruence].
Qed.

(** What the [catch] of a callback makes of an agreement. *)
Lemma agrees_caught (eng : engine) (id : value) (a : M unit) (l : M value)
    (failure : string) (st : state) :
  agrees id a l ->
  trace (snd (try_catch l
                (fun error =>
                   ret (Legacy.text_content
                          (failure ++ exn_message eng error)%string)) st))
  = trace (snd (a st)) /\
  match fst (a st) with
  | inr _ => exists text,
      fst (try_catch l
             (fun error =>
                ret (Legacy.text_content
                       (failure ++ exn_message eng error)%string)) st)
      = ok (Legacy.text_content text) /\
      res_sent (snd (a st))
      = res_sent st
        ++ [(200%Z, Json (result_envelope (text_content text) id))]
  | inl e =>
      fst (try_catch l
             (fun error =>
                ret (Legacy.text_content
                       (failure ++ exn_message eng error)%string)) st)
      = ok (Legacy.text_content (failure ++ exn_message eng e)%string) /\
      res_sent (snd (a st)) = res_sent st
  end.
Proof.
  intros H. destruct (H st) as [Htrace Hout]. unfold try_catch.
  destruct (l st) as [[e' | v] st2]; simpl in *.
  - destruct (fst (a st)) as [e | u]; [| contradiction].
    destruct Hout as [-> Hs]. split; [symmetry; exact Htrace |].
    split; [reflexivity | exact Hs].
  - destruct (fst (a st)) as [e | u]; [contradiction |].
    destruct Hout as [text [-> Hs]]. split; [symmetry; exact Htrace |].
    exists text. split; [reflexivity | exact Hs].
Qed.

End LegacyFacts.

Import LegacyFacts.

(** X19: on the arguments its schema lets through, the SDK callback
    [deploy-vercel] of the earlier entry point and the [deploy-vercel]
    branch of the present dispatcher do the same: the same calls; the
    text the one returns is the text the other sends as result; and
    where the dispatcher throws, the callback returns
    [❌ Vercel deployment failed: ] followed by the message thrown.  The
    [branch] may be missing: the schema of the one and the destructuring
    of the other both put [main] in its place. *)
Theorem legacy_deploy_vercel_agrees
    (eng : engine) (env : process_env) (net : network)
    (args id : value) (projectName : string) (gitRepo branch : option string)
    (st : state) :
  get args "projectName" = Str projectName ->
  get args "gitRepo" = Legacy.optional gitRepo ->
  get args "branch" = Legacy.optional branch ->
  trace (snd (Legacy.deploy_vercel eng env net projectName gitRepo
                (Process.defaulted branch "main") st))
  = trace (snd (deploy_vercel eng env net args id st)) /\
  match fst (deploy_vercel eng env net args id st) with
  | inr _ => exists text,
      fst (Legacy.deploy_vercel eng env net projectName gitRepo
             (Process.defaulted branch "main") st)
      = ok (Legacy.text_content text) /\
      res_sent (snd (deploy_vercel eng env net args id st))
      = res_sent st
        ++ [(200%Z, Json (result_envelope (text_content text) id))]
  | inl e =>
      fst (Legacy.deploy_vercel eng env net projectName gitRepo
             (Process.defaulted branch "main") st)
      = ok (Legacy.text_content
              ("❌ Vercel deployment failed: " ++ exn_message eng e)%string) /\
      res_sent (snd (deploy_vercel eng env net args id st)) = res_sent st
  end.
Proof.
  intros Hpn Hgr Hbr.
  pose proof (get_str_object _ _ _ Hpn) as Hargs.
  assert (Hsame : deploy_vercel eng env net args id st
                  = (vercelToken <- lift (require_token (VERCEL_TOKEN env)
                        "VERCEL_TOKEN environment variable is required") ;;
                     deployment <- createDeployment eng net vercelToken
                        (Str projectName)
                        (if truthy (Legacy.optional gitRepo)
                         then Obj [("type"%string, Str "github");
                                   ("repo"%string, Legacy.optional gitRepo);
                                   ("ref"%string,
                                    Str (Process.defaulted branch "main"))]
                         else Undefined) ;;
                     text <- lift (vercel_started deployment) ;;
                     send_json 200 (result_envelope (text_content text) id))%js
                      st).
  { unfold deploy_vercel.
    rewrite (bind_ok _ _ st st tt)
      by (unfold lift, destructurable; rewrite Hargs; reflexivity).
    rewrite Hpn, Hgr, Hbr. destruct branch; reflexivity. }
  rewrite Hsame. unfold Legacy.deploy_vercel.
  apply agrees_caught.
  apply agrees_bind; [auto with silent | intros tok].
  apply agrees_bind; [auto with silent | intros deployment].
  apply agrees_bind; [auto with silent | intros text].
  apply agrees_send.
Qed.

Lemma legacy_deploy_vercel_agrees_witness :
  fst (Legacy.deploy_vercel plain_engine without_tokens provider
         "demo" (Some "owner/repo"%string) "main" initial)
  = ok (Legacy.text_content
          "❌ Vercel deployment failed: VERCEL_TOKEN environment variable is required").
Proof.
  exact (proj1 (proj2 (legacy_deploy_vercel_agrees plain_engine without_tokens
                         provider
                         (Obj [("projectName"%string, Str "demo");
                               ("gitRepo"%string, Str "owner/repo")])
                         (Num 1) "demo" (Some "owner/repo"%string) None initial
                         eq_refl eq_refl eq_refl))).
Defined.

(** X20: the same of [deploy-render]: by identifier or by name, the earlier
    callback and the present branch make the same calls and end with the
    same text or the same failure. *)
Theorem legacy_deploy_render_agrees
    (eng : engine) (env : process_env) (net : network)
    (args id : value) (serviceId : string) (serviceName : option string)
    (st : state) :
  get args "serviceId" = Str serviceId ->
  get args "serviceName" = Legacy.optional serviceName ->
  trace (snd (Legacy.deploy_render eng env net serviceId serviceName st))
  = trace (snd (deploy_render eng env net args id st)) /\
  match fst (deploy_render eng env net args id st) with
  | inr _ => exists text,
      fst (Legacy.deploy_render eng env net serviceId serviceName st)
      = ok (Legacy.text_content text) /\
      res_sent (snd (deploy_render eng env net args id st))
      = res_sent st
        ++ [(200%Z, Json (result_envelope (text_content text) id))]
  | inl e =>
      fst (Legacy.deploy_render eng env net serviceId serviceName st)
      = ok (Legacy.text_content
              ("❌ Render deployment failed: " ++ exn_message eng e)%string) /\
      res_sent (snd (deploy_render eng env net args id st)) = res_sent st
  end.
Proof.
  intros Hid Hname.
  pose proof (get_str_object _ _ _ Hid) as Hargs.
  assert (Hsame : deploy_render eng env net args id st
                  = (renderToken <- lift (require_token (RENDER_TOKEN env)
                        "RENDER_TOKEN environment variable is required") ;;
                     actualServiceId <-
                       (if negb (truthy (Str serviceId))
                           && truthy (Legacy.optional serviceName)
                        then
                          services <- getServices eng net renderToken ;;
                          service <- lift (find_service services
                                             (Legacy.optional serviceName)) ;;
                          if negb (truthy service)
                          then
                            shown <- lift (to_string
                                             (Legacy.optional serviceName)) ;;
                            throw (Error ("Service " ++ dquote ++ shown
                                          ++ dquote ++ " not found")%string)
                          else lift (member service "id")
                        else ret (Str serviceId)) ;;
                     deployment <- triggerDeployment eng net renderToken
                                     actualServiceId ;;
                     text <- lift (render_started eng deployment
                                     actualServiceId) ;;
                     send_json 200 (result_envelope (text_content text) id))%js
                      st).
  { unfold deploy_render.
    rewrite (bind_ok _ _ st st tt)
      by (unfold lift, destructurable; rewrite Hargs; reflexivity).
    rewrite Hid, Hname. reflexivity. }
  rewrite Hsame. unfold Legacy.deploy_render.
  apply agrees_caught.
  apply agrees_bind; [auto with silent | intros tok].
  apply agrees_bind; [apply silent_actual_service_id | intros actual].
  apply agrees_bind; [auto with silent | intros deployment].
  apply agrees_bind; [auto with silent | intros text].
  apply agrees_send.
Qed.

Lemma legacy_deploy_render_agrees_witness :
  trace (snd (Legacy.deploy_render plain_engine with_tokens provider
                "" (Some "api"%string) initial))
  = trace (snd (deploy_render plain_engine with_tokens provider
                  (Obj [("serviceId"%string, Str "");
                        ("serviceName"%string, Str "api")])
                  (Num 1) initial)).
Proof.
  exact (proj1 (legacy_deploy_render_agrees plain_engine with_tokens provider
                  (Obj [("serviceId"%string, Str "");
                        ("serviceName"%string, Str "api")])
                  (Num 1) "" (Some "api"%string) initial eq_refl eq_refl)).
Defined.

(** ** [server.ts]: the table of SSE sessions *)

Module SessionFacts.
Import Sessions.
Local Open Scope list_scope.

Lemma own_remove_same (key : string) (t : table) : own key (remove key t) = None.
Proof.
  induction t as [| [k tr] rest IH]; simpl; [reflexivity |].
  destruct (String.eqb_spec k key) as [-> | Hne]; simpl; [exact IH |].
  destruct (String.eqb_spec k key); [contradiction | exact IH].
Qed.

Lemma own_remove_other (key other : string) (t : table) :
  other <> key -> own other (remove key t) = own other t.
Proof.
  intros Hne. induction t as [| [k tr] rest IH]; simpl; [reflexivity |].
  destruct (String.eqb_spec k key) as [-> | Hk]; simpl.
  - destruct (String.eqb_spec key other); [congruence | exact IH].
  - destruct (String.eqb_spec k other); [reflexivity | exact IH].
Qed.

Lemma own_store_same (key : string) (tr : transport) (t : table) :
  own key (store key tr t) = Some tr.
Proof. simpl. rewrite String.eqb_refl. reflexivity. Qed.

Lemma own_store_other (key other : string) (tr : transport) (t : table) :
  other <> key -> own other (store key tr t) = own other t.
Proof.
  intros Hne. simpl.
  destruct (String.eqb_spec key other); [congruence |].
  apply own_remove_other. exact Hne.
Qed.

End SessionFacts.

(** X21: a message is routed to a session from the moment it is opened until
    its connection closes: [POST /messages] hands it to the transport
    stored last under the identifier, answers 400 once a connection that
    drew the identifier has closed, and neither the opening nor the
    closing of a session changes what a message for another identifier
    gets. *)
Theorem messages_follow_the_open_sessions
    (tr : Sessions.transport) (t : Sessions.table) :
  Sessions.inherited (Sessions.sessionId tr) = false ->
  Sessions.post_messages (Some (Sessions.sessionId tr)) (Sessions.sse_open tr t)
  = Sessions.Handled tr /\
  Sessions.post_messages (Some (Sessions.sessionId tr)) (Sessions.sse_close tr t)
  = Sessions.NotFound 400 "No transport found for sessionId" /\
  (forall other,
     other <> Sessions.sessionId tr ->
     Sessions.post_messages (Some other) (Sessions.sse_open tr t)
     = Sessions.post_messages (Some other) t /\
     Sessions.post_messages (Some other) (Sessions.sse_close tr t)
     = Sessions.post_messages (Some other) t).
Proof.
  intros Hown. unfold Sessions.post_messages, Sessions.sse_open, Sessions.sse_close.
  split; [| split].
  - rewrite SessionFacts.own_store_same. reflexivity.
  - rewrite SessionFacts.own_remove_same, Hown. reflexivity.
  - intros other Hne.
    rewrite (SessionFacts.own_store_other _ _ _ _ Hne),
      (SessionFacts.own_remove_other _ _ _ Hne).
    split; reflexivity.
Qed.

Lemma messages_follow_the_open_sessions_witness :
  Sessions.post_messages (Some "u-1"%string)
    (Sessions.sse_close
       {| Sessions.sessionId := "u-1"; Sessions.connection := 0 |}
       (Sessions.sse_open
          {| Sessions.sessionId := "u-1"; Sessions.connection := 1 |}
          (Sessions.sse_open
             {| Sessions.sessionId := "u-1"; Sessions.connection := 0 |} [])))
  = Sessions.NotFound 400 "No transport found for sessionId".
Proof.
  exact (proj1 (proj2 (messages_follow_the_open_sessions
                         {| Sessions.sessionId := "u-1";
                            Sessions.connection := 0 |}
                         (Sessions.sse_open
                            {| Sessions.sessionId := "u-1";
                               Sessions.connection := 1 |}
                            (Sessions.sse_open
                               {| Sessions.sessionId := "u-1";
                                  Sessions.connection := 0 |} []))
                         eq_refl))).
Defined.

(** ** Calls that lack what they are read from *)

(** X13: a [tools/call] without [params], or for one of the two tools without
    [arguments], fails where the missing object is destructured: before
    the token is looked at and before anything goes out, and the reply
    is an error envelope with the engine's message for it. *)
Theorem tools_call_without_arguments
    (eng : engine) (env : process_env) (net : network) (uuid : string)
    (req : request) :
  req_method req = "POST"%string ->
  get (req_body req) "method" = Str "tools/call" ->
  nullish (get (req_body req) "params") = true \/
  (In (get (get (req_body req) "params") "name")
      [Str "deploy-vercel"; Str "deploy-render"] /\
   nullish (get (get (req_body req) "params") "arguments") = true) ->
  trace (snd (handler eng env net uuid req initial)) = [] /\
  res_sent (snd (handler eng env net uuid req initial))
  = [(200%Z, Json (error_envelope
                     (Str (type_error_message eng CannotDestructure))
                     (or_else (opt_get (req_body req) "id") Null)))].
Proof.
  intros Hpost Hm Hmissing.
  assert (Hrun : post_try eng env net uuid req (snd (cors initial))
                 = (raise (TypeError CannotDestructure),
                    at_session uuid req (snd (cors initial)))).
  { rewrite (post_try_tools_call eng env net uuid req _ Hm).
    destruct Hmissing as [Hp | [Hname Hargs]].
    - unfold tools_call, bind, lift, destructurable. rewrite Hp. reflexivity.
    - destruct Hname as [Hn | [Hn | []]]; symmetry in Hn;
        pose proof (get_str_object _ _ _ Hn) as Hp.
      + rewrite (tools_call_deploy_vercel eng env net _ _ _ Hp Hn).
        unfold deploy_vercel, bind, lift, destructurable. rewrite Hargs.
        reflexivity.
      + rewrite (tools_call_deploy_render eng env net _ _ _ Hp Hn).
        unfold deploy_render, bind, lift, destructurable. rewrite Hargs.
        reflexivity. }
  split.
  - rewrite (handler_post_trace eng env net uuid req Hpost), Hrun.
    apply at_session_trace.
  - destruct (post_outcome eng env net uuid req Hpost) as [_ Hout].
    rewrite Hrun in Hout. exact Hout.
Qed.

Lemma tools_call_without_arguments_witness :
  trace (snd (handler plain_engine with_tokens provider "u-1"
                (post [] (Obj [("jsonrpc"%string, Str "2.0");
                               ("method"%string, Str "tools/call");
                               ("params"%string,
                                Obj [("name"%string, Str "deploy-vercel")]);
                               ("id"%string, Num 3)]))
                initial)) = [] /\
  res_sent (snd (handler plain_engine with_tokens provider "u-1"
                   (post [] (Obj [("jsonrpc"%string, Str "2.0");
                                  ("method"%string, Str "tools/call");
                                  ("params"%string,
                                   Obj [("name"%string, Str "deploy-vercel")]);
                                  ("id"%string, Num 3)]))
                   initial))
  = [(200%Z, Json (error_envelope
                     (Str "Cannot destructure property of undefined")
                     (Num 3)))].
Proof.
  apply (tools_call_without_arguments plain_engine with_tokens provider "u-1"
           (post [] (Obj [("jsonrpc"%string, Str "2.0");
                          ("method"%string, Str "tools/call");
                          ("params"%string,
                           Obj [("name"%string, Str "deploy-vercel")]);
                          ("id"%string, Num 3)]))
           eq_refl eq_refl).
  right. split; [left; reflexivity | reflexivity].
Defined.

Lemma server_deploy_render_by_name_witness :
  trace (snd (Server.deploy_render plain_engine with_tokens provider
                "" (Some "api"%string) initial))
  = [Invoked GetServices; Requested (services_request "render-token");
     Invoked (TriggerDeployment (Str "srv-1"));
     Requested (deploys_request "render-token" "srv-1")].
Proof.
  apply (server_deploy_render_by_name plain_engine with_tokens provider initial
           "render-token" "api"
           [Obj [("id"%string, Str "srv-1"); ("name"%string, Str "api");
                 ("type"%string, Str "web_service")]]);
    try reflexivity; try discriminate.
  repeat constructor.
Defined.
